(** * dash-imoveis: the ingestion pipeline and the dashboard callbacks of app.py

    A shallow embedding of [src/app.py]: the module-level pre-processing that
    builds the global data frame [df], the thumbnail formatter, the callback
    [atualizar_dashboard] (filters, then aggregates) and the image popup
    callback [exibir_imagem], followed by the properties proved about them.

    Modelling conventions.
    - A pandas data frame is its ordered column names and its rows; a row maps
      column names to cells.
    - A cell is a Python value as pandas holds it.  [CNull] stands for the
      missing value (NaN, NaT, None), which pandas' [isna], [fillna] and
      comparisons treat alike.
    - A number is the exact value of a Python number: a rational or one of the
      two infinities (NaN is [CNull]).  Arithmetic on floats (means, medians,
      rounding, histogram bins) is never evaluated: the aggregates of a
      non-empty view are kept as descriptions of the call that computes them.
    - Text is a string of characters with code points below 256.
    - Library functions whose behaviour is not in the repository (json.loads,
      the number and date parsers of pandas, str() of a number, re) are the
      fields of [Runtime]; the general theorems hold for every runtime, and
      [Fragment.runtime] gives the functions on a documented fragment of
      their inputs for the concrete examples. *)

From Stdlib Require Import ZArith QArith Strings.String Strings.Ascii Lia.
From stdpp Require Import base option list gmap strings pretty sorting.

Local Open Scope Z_scope.
Local Open Scope string_scope.

(** ** Values *)

(** The value of a Python number other than NaN. *)
Inductive num : Type :=
  | NegInf
  | Fin (q : Q)
  | PosInf.

Definition num_leb (x y : num) : bool :=
  match x, y with
  | NegInf, _ => true
  | _, PosInf => true
  | Fin a, Fin b => Qle_bool a b
  | _, _ => false
  end.

Definition num_eqb (x y : num) : bool := num_leb x y && num_leb y x.

Definition num_of_Z (z : Z) : num := Fin (inject_Z z).

Definition num_of_bool (b : bool) : num := num_of_Z (if b then 1 else 0).

(** What [json.loads] returns.  A dict is kept as its key/value pairs in
    source order; [JNull] is both [null] and the [NaN] literal. *)
#[warnings="-register-all"]
Inductive json : Type :=
  | JNull
  | JBool (b : bool)
  | JNum (x : num)
  | JStr (s : string)
  | JArr (items : list json)
  | JObj (fields : list (string * json)).

Inductive cell : Type :=
  | CNull
  | CNum (x : num)
  | CBool (b : bool)
  | CStr (s : string)
  | CTime (t : Z)          (* a Timestamp, nanoseconds since the epoch *)
  | CObj (j : json).       (* a list or a dict decoded from JSON *)

Definition cell_of_json (j : json) : cell :=
  match j with
  | JNull => CNull
  | JBool b => CBool b
  | JNum x => CNum x
  | JStr s => CStr s
  | JArr _ | JObj _ => CObj j
  end.

Definition isna (c : cell) : bool :=
  match c with CNull => true | _ => false end.

Definition notna (c : cell) : bool := negb (isna c).

(** [Series.fillna(v)] on one cell. *)
Definition fillna (v c : cell) : cell := if isna c then v else c.

(** ** Exceptions *)

Inductive exn : Type :=
  | KeyError (key : string)
  | TypeError
  | AttributeError
  | IndexError
  | ValueError
  | ReError.

Inductive outcome (A : Type) : Type :=
  | Ok (a : A)
  | Raise (e : exn).
Arguments Ok {A} a.
Arguments Raise {A} e.

#[global] Instance outcome_ret : MRet outcome := λ A a, Ok a.
#[global] Instance outcome_bind : MBind outcome := λ A B f m,
  match m with
  | Ok a => f a
  | Raise e => Raise e
  end.

#[global] Instance outcome_fmap : FMap outcome := λ A B f m,
  match m with
  | Ok a => Ok (f a)
  | Raise e => Raise e
  end.

Definition raises {A} (m : outcome A) : bool :=
  match m with Ok _ => false | Raise _ => true end.

(** [mapM] over a list, stopping at the first exception. *)
Fixpoint traverse {A B} (f : A → outcome B) (l : list A) : outcome (list B) :=
  match l with
  | [] => Ok []
  | a :: l' => b ← f a; bs ← traverse f l'; Ok (b :: bs)
  end.

(** [df[mask]] where the mask is computed row by row and may raise. *)
Fixpoint filterM {A} (p : A → outcome bool) (l : list A) : outcome (list A) :=
  match l with
  | [] => Ok []
  | a :: l' => b ← p a; r ← filterM p l'; Ok (if b : bool then a :: r else r)
  end.

(** ** Data frames *)

Record frame : Type := Frame {
  columns : list string;
  records : list (gmap string cell)
}.

Definition has_column (c : string) (df : frame) : bool :=
  bool_decide (c ∈ columns df).

Definition cell_at (c : string) (r : gmap string cell) : cell :=
  default CNull (r !! c).

(** [df[c]]: the cells of a column, or KeyError. *)
Definition column (c : string) (df : frame) : outcome (list cell) :=
  if has_column c df then Ok (cell_at c <$> records df) else Raise (KeyError c).

Definition add_column (c : string) (cols : list string) : list string :=
  if bool_decide (c ∈ cols) then cols else cols ++ [c].

(** [df[c] = s] where the series [s] is computed element by element from the
    rows of [df] itself. *)
Definition set_col (c : string) (f : gmap string cell → cell) (df : frame) : frame :=
  Frame (add_column c (columns df)) ((λ r, <[c := f r]> r) <$> records df).

(** [df[c] = range(1, len(df) + 1)] *)
Definition set_range (c : string) (df : frame) : frame :=
  Frame (add_column c (columns df))
        (imap (λ i r, <[c := CNum (num_of_Z (Z.of_nat i + 1))]> r) (records df)).

(** [if c in df.columns: df = step(df)] *)
Definition if_column (c : string) (step : frame → frame) (df : frame) : frame :=
  if has_column c df then step df else df.

(** ** The library functions the program calls *)

Class Runtime : Type := {
  (** [json.loads]; [None] when it raises *)
  json_loads : string → option json;
  (** the string-to-float conversion inside [pd.to_numeric]; [None] when the
      text is not a number (or is a NaN) *)
  floatify : string → option num;
  (** [pd.to_datetime(v, unit='s', errors='coerce')] on one value; [None] is NaT *)
  to_datetime_s : cell → option Z;
  (** [pd.to_datetime(text)]: raises, or gives NaT ([None]) or a timestamp *)
  to_datetime : string → outcome (option Z);
  (** [str(v)] for a value that is neither text, boolean nor missing *)
  repr : cell → string;
  (** [re.compile(pat, re.IGNORECASE).search(text) is not None]; [None] when
      the pattern does not compile *)
  re_search_ignorecase : string → string → option bool
}.

(** ** Comparisons and row selection *)

(** The operand a cell gives to a comparison with a number: a number, NaN
    (every comparison is then False), or a value pandas refuses to compare. *)
Definition numeric_operand (c : cell) : outcome (option num) :=
  match c with
  | CNum x => Ok (Some x)
  | CBool b => Ok (Some (num_of_bool b))
  | CNull => Ok None
  | CStr _ | CTime _ | CObj _ => Raise TypeError
  end.

(** [(s >= lo) & (s <= hi)] on one cell *)
Definition between (lo hi : num) (c : cell) : outcome bool :=
  x ← numeric_operand c;
  Ok (match x with
      | Some x => num_leb lo x && num_leb x hi
      | None => false
      end).

(** [df[mask(df[c])]]: KeyError when the column is missing, otherwise the
    rows whose cell passes, in their order. *)
Definition where_ (c : string) (p : cell → outcome bool) (df : frame) : outcome frame :=
  _ ← column c df;
  rows ← filterM (λ r, p (cell_at c r)) (records df);
  Ok (Frame (columns df) rows).

(** ** Text *)

(** The character with a given code point. *)
Definition chr (n : nat) : string := String (ascii_of_nat n) EmptyString.

(** The double quote character. *)
Definition dquote : string := chr 34.

(** [str.isspace] on one character *)
Definition is_space (a : ascii) : bool :=
  let n := nat_of_ascii a in
  ((9 <=? n) && (n <=? 13) || (28 <=? n) && (n <=? 32) || (n =? 133) || (n =? 160))%nat.

Fixpoint lstrip (s : string) : string :=
  match s with
  | String a s' => if is_space a then lstrip s' else s
  | EmptyString => EmptyString
  end.

Fixpoint rstrip (s : string) : string :=
  match s with
  | String a s' =>
      match rstrip s' with
      | EmptyString => if is_space a then EmptyString else String a EmptyString
      | t => String a t
      end
  | EmptyString => EmptyString
  end.

(** [str.strip()] *)
Definition strip (s : string) : string := rstrip (lstrip s).

Definition string_drop (n : nat) (s : string) : string :=
  substring n (String.length s - n) s.

(** Index of the first occurrence of [sub] in [s]. *)
Fixpoint find_in (sub s : string) : option nat :=
  if String.prefix sub s then Some 0%nat
  else match s with
       | String _ s' => S <$> find_in sub s'
       | EmptyString => None
       end.

(** [s.find(sub, start)] *)
Definition py_find (sub s : string) (start : nat) : Z :=
  if (String.length s <? start)%nat then -1
  else match find_in sub (string_drop start s) with
       | Some i => Z.of_nat (start + i)
       | None => -1
       end.

(** [s[start:stop]] for [start >= 0]; a negative [stop] counts from the end. *)
Definition py_slice (s : string) (start : nat) (stop : Z) : string :=
  let len := Z.of_nat (String.length s) in
  let stop := if (stop <? 0)%Z then Z.max 0 (stop + len) else Z.min stop len in
  substring start (Z.to_nat stop - start) s.

(** [s.split('.')[0]] *)
Fixpoint before_dot (s : string) : string :=
  match s with
  | String a s' => if Ascii.eqb a "." then EmptyString else String a (before_dot s')
  | EmptyString => EmptyString
  end.

(** ** 1. Pre-processing (app.py, lines 60-145) *)

Section Ingestion.
Context `{RT : Runtime}.

(** [Series.astype(str)] on one cell of a column read from the CSV file. *)
Definition astype_str (c : cell) : string :=
  match c with
  | CStr s => s
  | CNull => "nan"
  | CBool true => "True"
  | CBool false => "False"
  | _ => repr c
  end.

(** [pd.to_numeric(s, errors='coerce')] on one cell: numbers stay, booleans
    count as 0 and 1, text goes through the float parser, everything else
    (and every text that is not a number) becomes NaN. *)
Definition to_numeric (c : cell) : cell :=
  match c with
  | CNum x => CNum x
  | CBool b => CNum (num_of_bool b)
  | CStr s => match floatify s with Some x => CNum x | None => CNull end
  | CNull | CTime _ | CObj _ => CNull
  end.

Definition time_cell (t : option Z) : cell :=
  match t with Some t => CTime t | None => CNull end.

(** [d.get(k)] on a decoded JSON object: the last binding of a repeated key
    is the one a Python dict keeps. *)
Fixpoint dict_get (k : string) (d : list (string * json)) : option json :=
  match d with
  | [] => None
  | (k', v) :: d' =>
      match dict_get k d' with
      | Some w => Some w
      | None => if bool_decide (k = k') then Some v else None
      end
  end.

(** [d.get(k, np.nan)] as the cell it becomes in the frame. *)
Definition get_or_nan (k : string) (d : list (string * json)) : cell :=
  match dict_get k d with
  | Some v => cell_of_json v
  | None => CNull
  end.

Record location : Type := Location {
  loc_municipality : cell;
  loc_ddd : cell;
  loc_neighbourhood : cell;
  loc_uf : cell
}.

(** Lines 70-80.  Only a JSON object has [.get]; on anything else, and when
    [json.loads] raises, the [except] branch answers. *)
Definition parse_location (details : string) : location :=
  match json_loads details with
  | Some (JObj loc) =>
      Location (get_or_nan "municipality" loc) (get_or_nan "ddd" loc)
               (get_or_nan "neighbourhood" loc) (get_or_nan "uf" loc)
  | _ => Location CNull CNull CNull CNull
  end.

Record properties : Type := Properties {
  prop_category : cell;
  prop_real_estate_type : cell;
  prop_rooms : cell;
  prop_bathrooms : cell;
  prop_garage_spaces : cell
}.

(** One step of the dict comprehension [{item.get("name"): item.get("value")
    for item in props}].  [None]: the step raises (the item has no [.get], or
    its name is a list or a dict, which cannot be a key).  [Some None]: the
    entry has a key that is not text, which no later lookup asks for. *)
Definition props_entry (item : json) : option (option (string * json)) :=
  match item with
  | JObj fields =>
      let value := default JNull (dict_get "value" fields) in
      match dict_get "name" fields with
      | Some (JStr name) => Some (Some (name, value))
      | Some (JArr _) | Some (JObj _) => None
      | Some (JNull) | Some (JBool _) | Some (JNum _) | None => Some None
      end
  | _ => None
  end.

Fixpoint props_dict (items : list json) : option (list (string * json)) :=
  match items with
  | [] => Some []
  | item :: rest =>
      match props_entry item, props_dict rest with
      | Some e, Some d => Some (match e with Some kv => kv :: d | None => d end)
      | _, _ => None
      end
  end.

Definition no_properties : properties :=
  Properties CNull CNull CNull CNull CNull.

(** Lines 95-108.  A JSON array of objects gives the lookup table; every
    other decoded value either cannot be iterated, or iterates over things
    without [.get], or is empty: all five fields are NaN then. *)
Definition parse_properties (prop_str : string) : properties :=
  match json_loads prop_str with
  | Some (JArr props) =>
      match props_dict props with
      | Some d =>
          Properties (get_or_nan "category" d) (get_or_nan "real_estate_type" d)
                     (get_or_nan "rooms" d) (get_or_nan "bathrooms" d)
                     (get_or_nan "garage_spaces" d)
      | None => no_properties
      end
  | _ => no_properties
  end.

Definition split_location (df : frame) : frame :=
  if has_column "locationdetails" df then
    let df := set_col "locationdetails" (λ r, CStr (astype_str (cell_at "locationdetails" r))) df in
    let location_parsed r := parse_location (astype_str (cell_at "locationdetails" r)) in
    let df := set_col "municipality" (λ r, loc_municipality (location_parsed r)) df in
    let df := set_col "ddd" (λ r, loc_ddd (location_parsed r)) df in
    let df := set_col "neighbourhood" (λ r, loc_neighbourhood (location_parsed r)) df in
    set_col "uf" (λ r, loc_uf (location_parsed r)) df
  else
    let df := set_col "municipality" (λ _, CStr "Desconhecido") df in
    let df := set_col "ddd" (λ _, CStr "Desconhecido") df in
    let df := set_col "neighbourhood" (λ _, CStr "Desconhecido") df in
    set_col "uf" (λ _, CStr "Desconhecido") df.

Definition split_properties (df : frame) : frame :=
  if has_column "properties" df then
    let df := set_col "properties" (λ r, CStr (astype_str (cell_at "properties" r))) df in
    let props_parsed r := parse_properties (astype_str (cell_at "properties" r)) in
    let df := set_col "category" (λ r, prop_category (props_parsed r)) df in
    let df := set_col "real_estate_type" (λ r, prop_real_estate_type (props_parsed r)) df in
    let df := set_col "rooms" (λ r, prop_rooms (props_parsed r)) df in
    let df := set_col "bathrooms" (λ r, prop_bathrooms (props_parsed r)) df in
    set_col "garage_spaces" (λ r, prop_garage_spaces (props_parsed r)) df
  else
    let df := set_col "category" (λ _, CNull) df in
    let df := set_col "real_estate_type" (λ _, CNull) df in
    let df := set_col "rooms" (λ _, CNull) df in
    let df := set_col "bathrooms" (λ _, CNull) df in
    set_col "garage_spaces" (λ _, CNull) df.

Definition zero : cell := CNum (num_of_Z 0).

(** [pd.to_numeric(s, errors='coerce').fillna(0)] on one cell: coerce first,
    then fill what is missing. *)
Definition numeric_or_zero (v : cell) : cell := fillna zero (to_numeric v).

(** [df[c].fillna(v, inplace=True)]: raises when [c] is missing.  The fill
    reaches the frame, as it does when pandas runs without copy-on-write. *)
Definition fill_column (c : string) (v : cell) (df : frame) : outcome frame :=
  _ ← column c df; Ok (set_col c (λ r, fillna v (cell_at c r)) df).

(** Lines 60-133: everything before the range filter.  The frame given is the
    one read from the archive with its column names already lower-cased (line
    60), for a file whose headers stay pairwise distinct when lower-cased: a
    row maps each label to one cell.  On a file with two headers that differ
    by letter case only, [df[c]] is a frame of two columns, which is outside
    this model. *)
Definition normalize (df : frame) : outcome frame :=
  let df := set_range "id" df in
  let df := if_column "date"
              (set_col "date" (λ r, time_cell (to_datetime_s (cell_at "date" r)))) df in
  let df := if_column "price_value"
              (set_col "price_value" (λ r, to_numeric (cell_at "price_value" r))) df in
  let df := if_column "listid"
              (set_col "listid" (λ r, CStr (astype_str (cell_at "listid" r)))) df in
  let df := split_location df in
  let df := split_properties df in
  let df := set_col "rooms" (λ r, numeric_or_zero (cell_at "rooms" r)) df in
  let df := set_col "bathrooms" (λ r, numeric_or_zero (cell_at "bathrooms" r)) df in
  let df := set_col "garage_spaces" (λ r, numeric_or_zero (cell_at "garage_spaces" r)) df in
  df ← fill_column "municipality" (CStr "Desconhecido") df;
  df ← fill_column "ddd" (CStr "Desconhecido") df;
  df ← fill_column "neighbourhood" (CStr "Desconhecido") df;
  df ← fill_column "uf" (CStr "Desconhecido") df;
  fill_column "price_value" zero df.

(** Line 135 *)
Definition range_filter (df : frame) : outcome frame :=
  where_ "price_value" (between (num_of_Z 100) (num_of_Z 10000)) df.

(** Lines 137-140.  A number or a boolean is not missing and has no [strip];
    a decoded JSON value never reaches this function, the column comes from
    the CSV file. *)
Definition create_thumbnail_html (url : cell) : outcome string :=
  match url with
  | CNull => Ok ""
  | CStr url =>
      if String.eqb (strip url) "" then Ok ""
      else Ok ("<img src=" ++ dquote ++ url ++ dquote ++ " class=" ++ dquote
               ++ "thumb-img" ++ dquote ++ " />")
  | CNum _ | CBool _ | CTime _ | CObj _ => Raise AttributeError
  end.

(** Lines 142-145 *)
Definition add_thumbnails (df : frame) : outcome frame :=
  if has_column "thumbnail" df then
    links ← traverse (λ r, create_thumbnail_html (cell_at "thumbnail" r)) (records df);
    Ok (Frame (add_column "thumbnail_link" (columns df))
              (zip_with (λ link r, <["thumbnail_link" := CStr link]> r) links (records df)))
  else Ok (set_col "thumbnail_link" (λ _, CStr "") df).

(** The base table: the global [df] once the module is loaded. *)
Definition ingest (raw : frame) : outcome frame :=
  df ← normalize raw;
  df ← range_filter df;
  add_thumbnails df.

End Ingestion.

(** ** 2. The dashboard callback (app.py, lines 316-428) *)

(** The twelve inputs of [atualizar_dashboard], with the types the widgets
    give them: dates as text, selections as lists of values, sliders as a
    pair of bounds, the professional flag as a boolean; [None] is Python's
    [None]. *)
Record criteria : Type := Criteria {
  start_date : option string;
  end_date : option string;
  municipios : option (list cell);
  bairros : option (list cell);
  categorias : option (list cell);
  tipos : option (list cell);
  faixa_preco : option (num * num);
  faixa_quartos : option (num * num);
  faixa_banheiros : option (num * num);
  faixa_vagas : option (num * num);
  profissional : option bool;
  busca : option string
}.

(** Truth value of an optional text: [None] and the empty text are false. *)
Definition given_text (o : option string) : option string :=
  match o with
  | Some s => if String.eqb s "" then None else Some s
  | None => None
  end.

(** Truth value of an optional list: [None] and the empty list are false. *)
Definition given_list {A} (o : option (list A)) : option (list A) :=
  match o with
  | Some (x :: l) => Some (x :: l)
  | _ => None
  end.

(** Python's [==] between two values that are not lists or dicts. *)
Definition py_eqb (a b : cell) : bool :=
  match a, b with
  | CNum x, CNum y => num_eqb x y
  | CNum x, CBool b | CBool b, CNum x => num_eqb x (num_of_bool b)
  | CBool a, CBool b => Bool.eqb a b
  | CStr s, CStr t => String.eqb s t
  | CTime s, CTime t => Z.eqb s t
  | _, _ => false
  end.

Definition is_obj (c : cell) : bool :=
  match c with CObj _ => true | _ => false end.

(** One cell of [s.isin(values)]: a missing cell is found when [values] has a
    missing value; a list or a dict cannot be hashed. *)
Definition isin (values : list cell) (c : cell) : outcome bool :=
  if is_obj c then Raise TypeError
  else Ok (existsb (λ v, if isna c then isna v else py_eqb v c) values).

(** [if values: df = df[df[c].isin(values)]] *)
Definition filter_isin (c : string) (values : option (list cell)) (df : frame) : outcome frame :=
  match given_list values with
  | Some vs =>
      _ ← column c df;
      if existsb is_obj vs then Raise TypeError else where_ c (isin vs) df
  | None => Ok df
  end.

(** [if faixa: df = df[(df[c] >= faixa[0]) & (df[c] <= faixa[1])]] *)
Definition filter_range (c : string) (faixa : option (num * num)) (df : frame) : outcome frame :=
  match faixa with
  | Some (lo, hi) => where_ c (between lo hi) df
  | None => Ok df
  end.

(** One cell of a comparison of a datetime column with a timestamp; NaT on
    either side compares False. *)
Definition time_compare (cmp : Z → Z → bool) (bound : option Z) (c : cell) : outcome bool :=
  match c with
  | CTime t => Ok (match bound with Some b => cmp t b | None => false end)
  | CNull => Ok false
  | CNum _ | CBool _ | CStr _ | CObj _ => Raise TypeError
  end.

(** [df.loc[mask]] *)
Definition loc (mask : list bool) (df : frame) : frame :=
  Frame (columns df) ((filter (λ x, x.2 = true) (zip (records df) mask)).*1).

Section Callback.
Context `{RT : Runtime}.

(** Lines 320-322 *)
Definition filter_date (start_date end_date : option string) (df : frame) : outcome frame :=
  match given_text start_date, given_text end_date with
  | Some s, Some e =>
      dates ← column "date" df;
      if existsb notna dates then
        lo ← to_datetime s;
        ge ← traverse (time_compare Z.geb lo) dates;
        hi ← to_datetime e;
        le ← traverse (time_compare Z.leb hi) dates;
        Ok (loc (zip_with andb ge le) df)
      else Ok df
  | _, _ => Ok df
  end.

(** Lines 351-352 *)
Definition filter_profissional (profissional : option bool) (df : frame) : outcome frame :=
  match profissional with
  | Some b => where_ "professionalad" (λ c, Ok (py_eqb c (CBool b))) df
  | None => Ok df
  end.

(** The lambda of line 357 on one row: does the pattern match the text form
    of any of the chosen columns. *)
Definition row_matches (busca : string) (cols : list string) (r : gmap string cell) : outcome bool :=
  hits ← traverse (λ c, match re_search_ignorecase busca (astype_str (cell_at c r)) with
                        | Some b => Ok b
                        | None => Raise ReError
                        end) cols;
  Ok (existsb id hits).

(** Lines 353-357.  (On a view without rows pandas does not call the lambda
    and gives back a frame without rows; so does [filterM].) *)
Definition filter_busca (busca : option string) (df : frame) : outcome frame :=
  match given_text busca with
  | Some term =>
      let cols_para_busca := filter (λ col, has_column col df = true) ["subject"; "title"] in
      match cols_para_busca with
      | _ :: _ =>
          rows ← filterM (row_matches term cols_para_busca) (records df);
          Ok (Frame (columns df) rows)
      | [] => Ok df
      end
  | None => Ok df
  end.

(** Lines 319-357: the filtered view [df_filtrado]. *)
Definition filtrar (c : criteria) (df : frame) : outcome frame :=
  df_filtrado ← filter_date (start_date c) (end_date c) df;
  df_filtrado ← filter_isin "municipality" (municipios c) df_filtrado;
  df_filtrado ← filter_isin "neighbourhood" (bairros c) df_filtrado;
  df_filtrado ← filter_isin "category" (categorias c) df_filtrado;
  df_filtrado ← filter_isin "real_estate_type" (tipos c) df_filtrado;
  df_filtrado ← filter_range "price_value" (faixa_preco c) df_filtrado;
  df_filtrado ← filter_range "rooms" (faixa_quartos c) df_filtrado;
  df_filtrado ← filter_range "bathrooms" (faixa_banheiros c) df_filtrado;
  df_filtrado ← filter_range "garage_spaces" (faixa_vagas c) df_filtrado;
  df_filtrado ← filter_profissional (profissional c) df_filtrado;
  filter_busca (busca c) df_filtrado.

(** *** Aggregation (lines 359-428) *)

Inductive chart : Type := Histogram | Bar | Box.

(** The data a plotly express call is given: none ([px.histogram()]), the
    view itself, or [view.groupby(by, as_index=False).size()]. *)
Inductive source : Type :=
  | NoData
  | Rows (rows : list (gmap string cell))
  | GroupSizes (by_ : string) (rows : list (gmap string cell)).

Record figure : Type := Figure {
  fig_chart : chart;
  fig_data : source;
  fig_x : option string;
  fig_y : option string;
  fig_nbins : option nat;
  fig_labels : list (string * string);
  fig_template : option string;
  fig_title : option string;
  fig_xaxis_title : option string
}.

(** [px.histogram()], [px.bar()], [px.box()] followed by [update_layout] *)
Definition empty_figure (k : chart) (title : string) (xaxis_title : option string) : figure :=
  Figure k NoData None None None [] None (Some title) xaxis_title.

Definition sem_dados : string := "Sem dados para exibir".
Definition sem_estatisticas : string :=
  "Sem dados para exibir estat" ++ chr 237 ++ "sticas.".
Definition preco_rs : string := "Pre" ++ chr 231 ++ "o (R$)".

(** The text given to [dcc.Markdown]: the describe() table of the view
    wrapped in a div, or the message. *)
Inductive statistics : Type :=
  | DescribeTable (cols : list string) (rows : list (gmap string cell))
  | Message (text : string).

(** A summary number: the literal [0], or [np.round(s.mean(), 2)] and
    [np.round(s.median(), 2)] of a column. *)
Inductive summary : Type :=
  | Literal (n : Z)
  | RoundedMean (s : list cell)
  | RoundedMedian (s : list cell).

Record dashboard : Type := Dashboard {
  dados_tabela : list (gmap string cell);
  grafico_precos : figure;
  grafico_categorias : figure;
  analise_estatistica : statistics;
  total_imoveis : nat;
  preco_medio : summary;
  preco_mediano : summary;
  quartos_medios : summary;
  grafico_preco_bairro : figure;
  grafico_preco_municipio : figure;
  grafico_preco_categoria : figure
}.

(** A plotly express call on the view with the columns it names. *)
Definition px (k : chart) (view : frame) (x : string) (y : option string)
    (nbins : option nat) (title : string) (labels : list (string * string)) : outcome figure :=
  if forallb (λ c, has_column c view) (x :: from_option (λ c, [c]) [] y) then
    Ok (Figure k (Rows (records view)) (Some x) y nbins labels (Some "plotly_white")
               (Some title) None)
  else Raise ValueError.

Definition box_figure (view : frame) (x title x_label : string) : outcome figure :=
  px Box view x (Some "price_value") None title [(x, x_label); ("price_value", preco_rs)].

Definition agregar (df_filtrado : frame) : outcome dashboard :=
  let dados_tabela := records df_filtrado in
  let len := length (records df_filtrado) in
  grafico_precos ←
    (if (0 <? len)%nat then
       px Histogram df_filtrado "price_value" None (Some 30%nat)
          ("Distribui" ++ chr 231 ++ chr 227 ++ "o dos Pre" ++ chr 231 ++ "os dos Im"
           ++ chr 243 ++ "veis")
          [("price_value", preco_rs)]
     else Ok (empty_figure Histogram sem_dados (Some preco_rs)));
  grafico_categorias ←
    (if (0 <? len)%nat then
       _ ← column "category" df_filtrado;
       Ok (Figure Bar (GroupSizes "category" (records df_filtrado)) (Some "category")
                  (Some "size") None [("size", "Contagem"); ("category", "Categoria")]
                  (Some "plotly_white")
                  (Some ("Contagem de Im" ++ chr 243 ++ "veis por Categoria")) None)
     else Ok (empty_figure Bar sem_dados None));
  estatisticas ←
    (if (0 <? len)%nat then
       let cols := ["price_value"; "rooms"; "bathrooms"; "garage_spaces"] in
       _ ← traverse (λ c, column c df_filtrado) cols;
       Ok (DescribeTable cols (records df_filtrado))
     else Ok (Message sem_estatisticas));
  let total_imoveis := len in
  preco_medio ←
    (if (0 <? total_imoveis)%nat
     then RoundedMean <$> column "price_value" df_filtrado else Ok (Literal 0));
  preco_mediano ←
    (if (0 <? total_imoveis)%nat
     then RoundedMedian <$> column "price_value" df_filtrado else Ok (Literal 0));
  quartos_medios ←
    (if (0 <? total_imoveis)%nat
     then RoundedMean <$> column "rooms" df_filtrado else Ok (Literal 0));
  boxes ←
    (if (0 <? len)%nat then
       b ← box_figure df_filtrado "neighbourhood" ("Pre" ++ chr 231 ++ "o por Bairro") "Bairro";
       m ← box_figure df_filtrado "municipality"
             ("Pre" ++ chr 231 ++ "o por Munic" ++ chr 237 ++ "pio")
             ("Munic" ++ chr 237 ++ "pio");
       c ← box_figure df_filtrado "category" ("Pre" ++ chr 231 ++ "o por Categoria") "Categoria";
       Ok (b, m, c)
     else Ok (empty_figure Box sem_dados None, empty_figure Box sem_dados None,
              empty_figure Box sem_dados None));
  let '(grafico_preco_bairro, grafico_preco_municipio, grafico_preco_categoria) := boxes in
  Ok (Dashboard dados_tabela grafico_precos grafico_categorias estatisticas
                total_imoveis preco_medio preco_mediano quartos_medios
                grafico_preco_bairro grafico_preco_municipio grafico_preco_categoria).

(** A callback reads the global [df] and may raise; it returns its result
    together with the global as it leaves it. *)
Definition callback (A : Type) : Type := frame → outcome A * frame.

(** Lines 316-428.  [df.copy()] is a frame of its own: nothing below assigns
    to the global. *)
Definition atualizar_dashboard (c : criteria) : callback dashboard :=
  λ df,
    let df_filtrado := df in
    (view ← filtrar c df_filtrado; agregar view, df).

End Callback.

(** ** 3. The image popup callback (app.py, lines 462-479) *)

(** The [active_cell] of the table: the row and the column clicked. *)
Record active : Type := Active {
  ac_row : nat;
  ac_column_id : string
}.

(** Truth value of a value of the table data (which arrives as JSON, where
    the missing value is [None]). *)
Definition truthy (c : cell) : bool :=
  match c with
  | CNull => false
  | CNum x => negb (num_eqb x (num_of_Z 0))
  | CBool b => b
  | CStr s => negb (String.eqb s "")
  | CTime _ => true
  | CObj (JArr []) | CObj (JObj []) => false
  | CObj _ => true
  end.

(** [triggered] lists the [prop_id] of the inputs that fired
    ([callback_context.triggered]); [fechar] is the click count of the close
    button, which the body never reads. *)
Definition exibir_imagem (triggered : list string) (active_cell : option active)
    (table_data : list (gmap string cell)) (fechar : Z) (is_open : bool)
    : outcome (bool * string) :=
  match triggered with
  | [] => Ok (is_open, "")
  | prop_id :: _ =>
      let trigger := before_dot prop_id in
      match (if String.eqb trigger "tabela-dados" then active_cell else None) with
      | Some ac =>
          if String.eqb (ac_column_id ac) "thumbnail_link" then
            match table_data !! ac_row ac with
            | None => Raise IndexError
            | Some row =>
                let cell_value := default (CStr "") (row !! "thumbnail_link") in
                if truthy cell_value then
                  match cell_value with
                  | CStr cell_value =>
                      let start := py_find ("src=" ++ dquote) cell_value 0 in
                      if (start =? -1)%Z then Ok (is_open, "")
                      else
                        let start := (Z.to_nat start + String.length ("src=" ++ dquote))%nat in
                        let end_ := py_find dquote cell_value start in
                        let url := py_slice cell_value start end_ in
                        Ok (true, url)
                  | _ => Raise AttributeError
                  end
                else Ok (is_open, "")
            end
          else Ok (is_open, "")
      | None =>
          if String.eqb trigger "fechar-modal" then Ok (false, "")
          else Ok (is_open, "")
      end
  end.

(** ** 4. The library functions on a fragment of their inputs

    Concrete versions of the fields of [Runtime], each defined on the part of
    its domain named in its comment.  Inside that part it returns what the
    Python function returns; outside, its answer says nothing about Python.
    The concrete examples below stay inside. *)

Module Fragment.

Definition dq : ascii := ascii_of_nat 34.

Definition digit_of (a : ascii) : option Z :=
  let n := nat_of_ascii a in
  if ((48 <=? n) && (n <=? 57))%nat then Some (Z.of_nat (n - 48)) else None.

(** The value and the number of the leading decimal digits, and the rest. *)
Fixpoint read_digits (acc : Z) (count : nat) (s : string) : Z * nat * string :=
  match s with
  | String a s' =>
      match digit_of a with
      | Some d => read_digits (10 * acc + d) (S count) s'
      | None => (acc, count, s)
      end
  | EmptyString => (acc, count, s)
  end.

(** digits, then optionally a point and digits *)
Definition read_decimal (s : string) : option (Q * string) :=
  let '(i, n, rest) := read_digits 0 0 s in
  if (n =? 0)%nat then None
  else match rest with
       | String "." rest' =>
           let '(f, m, rest'') := read_digits 0 0 rest' in
           if (m =? 0)%nat then None
           else Some (Qred (Qmake (i * 10 ^ Z.of_nat m + f) (Z.to_pos (10 ^ Z.of_nat m))), rest'')
       | _ => Some (inject_Z i, rest)
       end.

(** [floatify] on plain decimal literals: an optional sign, digits, and
    optionally a point and digits; and on texts that start with no sign or
    digit, which are not numbers unless they spell an infinity or a NaN. *)
Definition floatify (s : string) : option num :=
  match s with
  | String "-" s' =>
      match read_decimal s' with
      | Some (q, EmptyString) => Some (Fin (- q))
      | _ => None
      end
  | String "+" s' =>
      match read_decimal s' with
      | Some (q, EmptyString) => Some (Fin q)
      | _ => None
      end
  | _ =>
      match read_decimal s with
      | Some (q, EmptyString) => Some (Fin q)
      | _ => None
      end
  end.

(** *** json.loads on documents without escapes or exponents *)

Definition is_json_space (a : ascii) : bool :=
  let n := nat_of_ascii a in
  ((n =? 32) || (n =? 9) || (n =? 10) || (n =? 13))%nat.

Fixpoint skip_ws (s : string) : string :=
  match s with
  | String a s' => if is_json_space a then skip_ws s' else s
  | EmptyString => EmptyString
  end.

(** After an opening quote: the text up to the closing quote, and the rest.
    A control character is an error; a backslash is outside the fragment. *)
Fixpoint scan_string (s : string) : option (string * string) :=
  match s with
  | EmptyString => None
  | String a s' =>
      if Ascii.eqb a dq then Some (EmptyString, s')
      else if Ascii.eqb a "\" then None
      else if (nat_of_ascii a <? 32)%nat then None
      else match scan_string s' with
           | Some (t, rest) => Some (String a t, rest)
           | None => None
           end
  end.

(** [item] one or more times, separated by commas, up to [close]. *)
Fixpoint parse_items {A} (item : string → option (A * string)) (close : ascii)
    (n : nat) (s : string) : option (list A * string) :=
  match n with
  | O => None
  | S n' =>
      match item s with
      | Some (a, rest) =>
          match skip_ws rest with
          | String c rest' =>
              if Ascii.eqb c "," then
                match parse_items item close n' rest' with
                | Some (l, r) => Some (a :: l, r)
                | None => None
                end
              else if Ascii.eqb c close then Some ([a], rest')
              else None
          | EmptyString => None
          end
      | None => None
      end
  end.

(** A number: no leading zero, no exponent. *)
Definition parse_number (s : string) : option (json * string) :=
  let '(negative, body) :=
    match s with String "-" s' => (true, s') | _ => (false, s) end in
  match body with
  | String "0" (String a _) =>
      match digit_of a with
      | Some _ => None
      | None =>
          match read_decimal body with
          | Some (q, rest) => Some (JNum (Fin (if negative : bool then - q else q)), rest)
          | None => None
          end
      end
  | _ =>
      match read_decimal body with
      | Some (q, rest) => Some (JNum (Fin (if negative : bool then - q else q)), rest)
      | None => None
      end
  end.

Definition after_number (r : option (json * string)) : option (json * string) :=
  match r with
  | Some (j, String a rest) =>
      if Ascii.eqb a "e" || Ascii.eqb a "E" || Ascii.eqb a "." then None
      else Some (j, String a rest)
  | _ => r
  end.

Fixpoint parse_value (fuel : nat) (s : string) : option (json * string) :=
  match fuel with
  | O => None
  | S fuel' =>
      let s := skip_ws s in
      if String.prefix "null" s then Some (JNull, string_drop 4 s)
      else if String.prefix "true" s then Some (JBool true, string_drop 4 s)
      else if String.prefix "false" s then Some (JBool false, string_drop 5 s)
      else if String.prefix "NaN" s then Some (JNull, string_drop 3 s)
      else if String.prefix "Infinity" s then Some (JNum PosInf, string_drop 8 s)
      else if String.prefix "-Infinity" s then Some (JNum NegInf, string_drop 9 s)
      else
        match s with
        | EmptyString => None
        | String c rest =>
            if Ascii.eqb c dq then
              match scan_string rest with
              | Some (t, rest') => Some (JStr t, rest')
              | None => None
              end
            else if Ascii.eqb c "[" then
              match skip_ws rest with
              | String "]" rest' => Some (JArr [], rest')
              | _ =>
                  match parse_items (parse_value fuel') "]" (String.length rest) rest with
                  | Some (l, rest') => Some (JArr l, rest')
                  | None => None
                  end
              end
            else if Ascii.eqb c "{" then
              match skip_ws rest with
              | String "}" rest' => Some (JObj [], rest')
              | _ =>
                  let member s :=
                    match skip_ws s with
                    | String q s1 =>
                        if Ascii.eqb q dq then
                          match scan_string s1 with
                          | Some (k, s2) =>
                              match skip_ws s2 with
                              | String ":" s3 =>
                                  match parse_value fuel' s3 with
                                  | Some (v, s4) => Some ((k, v), s4)
                                  | None => None
                                  end
                              | _ => None
                              end
                          | None => None
                          end
                        else None
                    | EmptyString => None
                    end in
                  match parse_items member "}" (String.length rest) rest with
                  | Some (l, rest') => Some (JObj l, rest')
                  | None => None
                  end
              end
            else after_number (parse_number s)
        end
  end.

Definition json_loads (s : string) : option json :=
  match parse_value (S (String.length s)) s with
  | Some (j, rest) => if String.eqb (skip_ws rest) "" then Some j else None
  | None => None
  end.

(** *** Dates *)

Definition nanoseconds_per_second : Z := 1000000000.

(** [pd.to_datetime(v, unit='s', errors='coerce')] on a whole number of
    seconds: a timestamp when it fits the 64-bit nanosecond range, NaT
    otherwise, and NaT for the missing value. *)
Definition to_datetime_s (c : cell) : option Z :=
  match c with
  | CNum (Fin q) =>
      if ((Zpos (Qden q) =? 1) && (-9223372036 <=? Qnum q) && (Qnum q <=? 9223372036))%Z
      then Some (Qnum q * nanoseconds_per_second)
      else None
  | _ => None
  end.

Definition is_leap (y : Z) : bool :=
  ((y mod 4 =? 0) && (negb (y mod 100 =? 0) || (y mod 400 =? 0)))%Z.

Definition days_in_month (y m : Z) : Z :=
  if (m =? 2)%Z then (if is_leap y then 29 else 28)
  else if ((m =? 4) || (m =? 6) || (m =? 9) || (m =? 11))%Z then 30
  else 31.

(** Days from 1970-01-01 to a date of the proleptic Gregorian calendar. *)
Definition days_from_civil (y m d : Z) : Z :=
  let y := if (m <=? 2)%Z then y - 1 else y in
  let era := y / 400 in
  let yoe := y - era * 400 in
  let mp := (m + 9) mod 12 in
  let doy := (153 * mp + 2) / 5 + d - 1 in
  let doe := yoe * 365 + yoe / 4 - yoe / 100 + doy in
  era * 146097 + doe - 719468.

(** [pd.to_datetime(text)] on a text of the form YYYY-MM-DD: midnight of that
    day, or an exception when there is no such day or the year is outside
    1678..2261. *)
Definition to_datetime (s : string) : outcome (option Z) :=
  match read_digits 0 0 s with
  | (y, 4%nat, String "-" s1) =>
      match read_digits 0 0 s1 with
      | (m, 2%nat, String "-" s2) =>
          match read_digits 0 0 s2 with
          | (d, 2%nat, EmptyString) =>
              if ((1678 <=? y) && (y <=? 2261) && (1 <=? m) && (m <=? 12)
                  && (1 <=? d) && (d <=? days_in_month y m))%Z
              then Ok (Some (days_from_civil y m d * 86400 * nanoseconds_per_second))
              else Raise ValueError
          | _ => Raise ValueError
          end
      | _ => Raise ValueError
      end
  | _ => Raise ValueError
  end.

(** [str(v)] of a whole number held as a Python int. *)
Definition repr (c : cell) : string :=
  match c with
  | CNum (Fin q) => if (Zpos (Qden q) =? 1)%Z then pretty (Qnum q) else EmptyString
  | _ => EmptyString
  end.

(** *** Regular expressions made of literal characters and dots *)

Definition is_meta (a : ascii) : bool :=
  existsb (Ascii.eqb a) (list_ascii_of_string ".^$*+?{}[]\|()").

(** Lower-casing of a character with a code point below 256. *)
Definition lower (a : ascii) : ascii :=
  let n := nat_of_ascii a in
  if ((65 <=? n) && (n <=? 90) || (192 <=? n) && (n <=? 222) && negb (n =? 215))%nat
  then ascii_of_nat (n + 32) else a.

Definition newline : ascii := ascii_of_nat 10.

(** One pattern character against one character of the text. *)
Definition char_matches (p a : ascii) : bool :=
  if Ascii.eqb p "." then negb (Ascii.eqb a newline)
  else Ascii.eqb (lower p) (lower a).

(** The pattern matches at the start of the text. *)
Fixpoint match_here (pat s : string) : bool :=
  match pat, s with
  | EmptyString, _ => true
  | String p pat', String a s' => char_matches p a && match_here pat' s'
  | String _ _, EmptyString => false
  end.

(** The pattern matches somewhere in the text. *)
Fixpoint search (pat s : string) : bool :=
  match_here pat s ||
  match s with
  | String _ s' => search pat s'
  | EmptyString => false
  end.

(** [re.compile(pat, re.IGNORECASE).search(text) is not None] for a pattern
    whose only special character is the dot. *)
Definition re_search_ignorecase (pat s : string) : option bool :=
  if forallb (λ a, negb (is_meta a) || Ascii.eqb a ".") (list_ascii_of_string pat)
  then Some (search pat s) else None.

Definition runtime : Runtime :=
  Build_Runtime json_loads floatify to_datetime_s to_datetime repr re_search_ignorecase.

End Fragment.

(** * Notions the statements are written with *)

(** ** Rows of the normalised frame *)

(** One assignment [df[c] = ...] seen from a row. *)
Definition row_set (c : string) (f : gmap string cell → cell)
    (r : gmap string cell) : gmap string cell := <[c := f r]> r.

Section Rows.
Context `{RT : Runtime}.

(** What lines 82-93 do to one row. *)
Definition location_row (has : bool) : gmap string cell → gmap string cell :=
  let location_parsed r := parse_location (astype_str (cell_at "locationdetails" r)) in
  if has then
    row_set "uf" (λ r, loc_uf (location_parsed r))
    ∘ row_set "neighbourhood" (λ r, loc_neighbourhood (location_parsed r))
    ∘ row_set "ddd" (λ r, loc_ddd (location_parsed r))
    ∘ row_set "municipality" (λ r, loc_municipality (location_parsed r))
    ∘ row_set "locationdetails" (λ r, CStr (astype_str (cell_at "locationdetails" r)))
  else
    row_set "uf" (λ _, CStr "Desconhecido")
    ∘ row_set "neighbourhood" (λ _, CStr "Desconhecido")
    ∘ row_set "ddd" (λ _, CStr "Desconhecido")
    ∘ row_set "municipality" (λ _, CStr "Desconhecido").

(** What lines 110-123 do to one row. *)
Definition properties_row (has : bool) : gmap string cell → gmap string cell :=
  let props_parsed r := parse_properties (astype_str (cell_at "properties" r)) in
  if has then
    row_set "garage_spaces" (λ r, prop_garage_spaces (props_parsed r))
    ∘ row_set "bathrooms" (λ r, prop_bathrooms (props_parsed r))
    ∘ row_set "rooms" (λ r, prop_rooms (props_parsed r))
    ∘ row_set "real_estate_type" (λ r, prop_real_estate_type (props_parsed r))
    ∘ row_set "category" (λ r, prop_category (props_parsed r))
    ∘ row_set "properties" (λ r, CStr (astype_str (cell_at "properties" r)))
  else
    row_set "garage_spaces" (λ _, CNull)
    ∘ row_set "bathrooms" (λ _, CNull)
    ∘ row_set "rooms" (λ _, CNull)
    ∘ row_set "real_estate_type" (λ _, CNull)
    ∘ row_set "category" (λ _, CNull).

(** What lines 61-133 do to the row at position [i] of the frame [raw]. *)
Definition normalize_row (raw : frame) (i : nat) : gmap string cell → gmap string cell :=
  row_set "price_value" (λ r, fillna zero (cell_at "price_value" r))
  ∘ row_set "uf" (λ r, fillna (CStr "Desconhecido") (cell_at "uf" r))
  ∘ row_set "neighbourhood" (λ r, fillna (CStr "Desconhecido") (cell_at "neighbourhood" r))
  ∘ row_set "ddd" (λ r, fillna (CStr "Desconhecido") (cell_at "ddd" r))
  ∘ row_set "municipality" (λ r, fillna (CStr "Desconhecido") (cell_at "municipality" r))
  ∘ row_set "garage_spaces" (λ r, numeric_or_zero (cell_at "garage_spaces" r))
  ∘ row_set "bathrooms" (λ r, numeric_or_zero (cell_at "bathrooms" r))
  ∘ row_set "rooms" (λ r, numeric_or_zero (cell_at "rooms" r))
  ∘ properties_row (has_column "properties" raw)
  ∘ location_row (has_column "locationdetails" raw)
  ∘ (if has_column "listid" raw
     then row_set "listid" (λ r, CStr (astype_str (cell_at "listid" r))) else id)
  ∘ (if has_column "price_value" raw
     then row_set "price_value" (λ r, to_numeric (cell_at "price_value" r)) else id)
  ∘ (if has_column "date" raw
     then row_set "date" (λ r, time_cell (to_datetime_s (cell_at "date" r))) else id)
  ∘ row_set "id" (λ _, CNum (num_of_Z (Z.of_nat i + 1))).

Definition derived_columns : list string :=
  ["id"; "municipality"; "ddd"; "neighbourhood"; "uf"; "category"; "real_estate_type";
   "rooms"; "bathrooms"; "garage_spaces"].

(** The price the normalisation leaves in a raw row: the number it holds or
    spells, and 0 when it holds none. *)
Definition normal_price (r : gmap string cell) : cell :=
  fillna zero (to_numeric (cell_at "price_value" r)).

(** The value [parse_properties] reads for a column of a raw row (missing
    when the frame has no [properties] column). *)
Definition source_property (raw : frame) (field : properties → cell)
    (r : gmap string cell) : cell :=
  if has_column "properties" raw
  then field (parse_properties (astype_str (cell_at "properties" r)))
  else CNull.

(** The test of line 135 on a price cell. *)
Definition in_price_range (c : cell) : bool :=
  match c with
  | CNum p => num_leb (num_of_Z 100) p && num_leb p (num_of_Z 10000)
  | _ => false
  end.

(** The rows of [raw] that the range filter keeps, each with its position
    (from 0) in [raw]. *)
Definition survivors (raw : frame) : list (nat * gmap string cell) :=
  filter (λ ir, in_price_range (normal_price ir.2) = true)
         (zip (seq 0 (length (records raw))) (records raw)).

(** The identifiers of a table, in row order. *)
Definition identifiers (df : frame) : list cell := cell_at "id" <$> records df.

(** The identifier line 61 gives the row at position [k] (from 0). *)
Definition identifier_at (k : nat) : cell := CNum (num_of_Z (Z.of_nat k + 1)).

(** The dense sequence 1..n. *)
Definition dense_identifiers (n : nat) : list cell := identifier_at <$> seq 0 n.

End Rows.

(** ** Criteria and views *)

(** Every input of the callback is [None], an empty text or an empty list. *)
Definition unset (c : criteria) : Prop :=
  given_text (start_date c) = None ∧ given_text (end_date c) = None
  ∧ given_list (municipios c) = None ∧ given_list (bairros c) = None
  ∧ given_list (categorias c) = None ∧ given_list (tipos c) = None
  ∧ faixa_preco c = None ∧ faixa_quartos c = None
  ∧ faixa_banheiros c = None ∧ faixa_vagas c = None
  ∧ profissional c = None ∧ given_text (busca c) = None.

(** What the callback returns for a view without rows: every figure without
    data and titled "Sem dados para exibir", the message in place of the
    statistics table, a count of 0 and the literal 0 for the three averages. *)
Definition no_data_dashboard : dashboard :=
  Dashboard []
    (empty_figure Histogram sem_dados (Some preco_rs))
    (empty_figure Bar sem_dados None)
    (Message sem_estatisticas)
    0 (Literal 0) (Literal 0) (Literal 0)
    (empty_figure Box sem_dados None)
    (empty_figure Box sem_dados None)
    (empty_figure Box sem_dados None).

(** A row's date lies between two timestamps, both included; a row without
    a date is outside every range. *)
Definition in_date_range (lo hi : Z) (c : cell) : bool :=
  match c with
  | CTime t => (lo <=? t)%Z && (t <=? hi)%Z
  | _ => false
  end.

(** The text columns the search looks at: those of [subject], [title] that
    the view has. *)
Definition text_columns (df : frame) : list string :=
  filter (λ col, has_column col df = true) ["subject"; "title"].

(** ** Concrete listings *)

Definition quoted (s : string) : string := dquote ++ s ++ dquote.

(** The JSON text of one entry of a [properties] list; [value] is JSON text. *)
Definition property_entry (name value : string) : string :=
  "{" ++ quoted "name" ++ ":" ++ quoted name ++ "," ++ quoted "value" ++ ":" ++ value ++ "}".

Definition listing (cells : list (string * cell)) : gmap string cell :=
  list_to_map cells.

(** The base table of a raw frame (an empty frame if the module raises). *)
Definition base_table_of (raw : frame) : frame :=
  match ingest (RT := Fragment.runtime) raw with
  | Ok base => base
  | Raise _ => Frame [] []
  end.

(** Six listings: a price below the range, one inside, a missing one, one
    that is not a number, the upper bound, and one above it. *)
Definition price_example : frame :=
  Frame ["price_value"]
    [ listing [("price_value", CStr "50")];
      listing [("price_value", CStr "500")];
      listing [("price_value", CNull)];
      listing [("price_value", CStr "abc")];
      listing [("price_value", CStr "10000")];
      listing [("price_value", CStr "10000.5")] ].

Definition price_example_base : frame := Eval vm_compute in base_table_of price_example.

(** One listing whose [properties] give the number -3 for [rooms]. *)
Definition negative_rooms_example : frame :=
  Frame ["price_value"; "properties"]
    [ listing [("price_value", CStr "1500");
               ("properties", CStr ("[" ++ property_entry "rooms" "-3" ++ "]"))] ].

Definition negative_rooms_base : frame :=
  Eval vm_compute in base_table_of negative_rooms_example.

(** The listing of the example: rooms "3", bathrooms "bad", no garage_spaces. *)
Definition coercion_example : frame :=
  Frame ["price_value"; "properties"]
    [ listing [("price_value", CStr "1500");
               ("properties",
                CStr ("[" ++ property_entry "rooms" (quoted "3") ++ ","
                      ++ property_entry "bathrooms" (quoted "bad") ++ "]"))] ].

Definition coercion_base : frame := Eval vm_compute in base_table_of coercion_example.

(** Three listings in range: posted on 1970-01-02, undated, posted on
    1970-01-04. *)
Definition dated_example : frame :=
  Frame ["price_value"; "date"]
    [ listing [("price_value", CStr "500"); ("date", CNum (num_of_Z 86400))];
      listing [("price_value", CStr "600"); ("date", CNull)];
      listing [("price_value", CStr "700"); ("date", CNum (num_of_Z 259200))] ].

Definition dated_base : frame := Eval vm_compute in base_table_of dated_example.

(** ** Concrete criteria *)

Definition no_criteria : criteria :=
  Criteria None None None None None None None None None None None None.

Definition only_profissional (b : bool) : criteria :=
  Criteria None None None None None None None None None None (Some b) None.

Definition only_dates (s e : string) : criteria :=
  Criteria (Some s) (Some e) None None None None None None None None None None.

Definition only_busca (term : string) : criteria :=
  Criteria None None None None None None None None None None None (Some term).

Definition only_preco (lo hi : Z) : criteria :=
  Criteria None None None None None None (Some (num_of_Z lo, num_of_Z hi))
           None None None None None.

(** ** Plain search *)

(** Follows the spec's words, not the code: the term is a prefix of the
    text, letter case ignored. *)
Fixpoint prefix_ignorecase (term s : string) : bool :=
  match term, s with
  | EmptyString, _ => true
  | String p term', String a s' =>
      Ascii.eqb (Fragment.lower p) (Fragment.lower a) && prefix_ignorecase term' s'
  | String _ _, EmptyString => false
  end.

(** Follows the spec's words, not the code: the term occurs in the text as a
    plain substring, letter case ignored. *)
Fixpoint occurs_ignorecase (term s : string) : bool :=
  prefix_ignorecase term s ||
  match s with
  | String _ s' => occurs_ignorecase term s'
  | EmptyString => false
  end.

(** Three listings, with the subjects "abc", "A.C" and "xyz". *)
Definition search_example : frame :=
  Frame ["price_value"; "subject"]
    [ listing [("price_value", CStr "500"); ("subject", CStr "abc")];
      listing [("price_value", CStr "600"); ("subject", CStr "A.C")];
      listing [("price_value", CStr "700"); ("subject", CStr "xyz")] ].

Definition search_base : frame := Eval vm_compute in base_table_of search_example.

(** ** Thumbnails *)

(** The fragment line 140 builds around a URL. *)
Definition thumbnail_markup (url : string) : string :=
  "<img src=" ++ dquote ++ url ++ dquote ++ " class=" ++ dquote ++ "thumb-img" ++ dquote
  ++ " />".

(** The text holds no double quote. *)
Fixpoint quote_free (s : string) : bool :=
  match s with
  | EmptyString => true
  | String a s' => negb (Ascii.eqb a (ascii_of_nat 34)) && quote_free s'
  end.

(** * Further code and notions *)

(** ** The columns of the table (app.py, lines 148-164) *)

(** [columns_for_table]: the header and the column id of each column the
    DataTable shows. *)
Definition columns_for_table : list (string * string) :=
  [ ("ID", "id");
    ("listId", "listid");
    ("Thumbnail", "thumbnail_link");
    ("Subject", "subject");
    (preco_rs, "price_value");
    ("Munic" ++ chr 237 ++ "pio", "municipality");
    ("DDD", "ddd");
    ("Bairro", "neighbourhood");
    ("UF", "uf");
    ("Categoria", "category");
    ("Tipo", "real_estate_type");
    ("Quartos", "rooms");
    ("Banheiros", "bathrooms");
    ("Vagas Garagem", "garage_spaces");
    ("Data", "date") ].

(** ** Rows of the base table, continued *)

Section MoreRows.
Context `{RT : Runtime}.

(** The value lines 82-93 give a location column of a raw row: what
    [parse_location] reads, or the text the [else] branch assigns. *)
Definition source_location (raw : frame) (field : location → cell)
    (r : gmap string cell) : cell :=
  if has_column "locationdetails" raw
  then field (parse_location (astype_str (cell_at "locationdetails" r)))
  else CStr "Desconhecido".

(** The raw row survives the range filter. *)
Definition survives (r : gmap string cell) : bool := in_price_range (normal_price r).

End MoreRows.

(** A thumbnail cell on which [create_thumbnail_html] returns: the missing
    value or a text. *)
Definition missing_or_text (c : cell) : bool :=
  match c with
  | CNull | CStr _ => true
  | _ => false
  end.

(** A number or a boolean, as [read_csv] gives for a column without text. *)
Definition number_or_boolean (c : cell) : bool :=
  match c with
  | CNum _ | CBool _ => true
  | _ => false
  end.

(** ** Row tests of the callback *)


Section Tests.
Context `{RT : Runtime}.







End Tests.

(** The cell is a number between the bounds of a slider, both included (any
    cell when the slider gives none). *)
Definition within (faixa : option (num * num)) (c : cell) : bool :=
  match faixa, c with
  | None, _ => true
  | Some (lo, hi), CNum x => num_leb lo x && num_leb x hi
  | Some _, _ => false
  end.

(** Only the four sliders are set. *)
Definition only_ranges (c : criteria) : Prop :=
  given_text (start_date c) = None ∧ given_text (end_date c) = None
  ∧ given_list (municipios c) = None ∧ given_list (bairros c) = None
  ∧ given_list (categorias c) = None ∧ given_list (tipos c) = None
  ∧ profissional c = None ∧ given_text (busca c) = None.

(** ** Further concrete frames *)

(** A file without a price column. *)
Definition no_price_example : frame :=
  Frame ["subject"] [ listing [("subject", CStr "casa")] ].

(** Four listings: a URL, no thumbnail, a blank one, and a listing whose
    price is out of range. *)
Definition thumbnail_example : frame :=
  Frame ["price_value"; "thumbnail"]
    [ listing [("price_value", CStr "500"); ("thumbnail", CStr "http://img.example/1.jpg")];
      listing [("price_value", CStr "600"); ("thumbnail", CNull)];
      listing [("price_value", CStr "700"); ("thumbnail", CStr "  ")];
      listing [("price_value", CStr "50"); ("thumbnail", CStr "http://img.example/4.jpg")] ].

Definition thumbnail_base : frame := Eval vm_compute in base_table_of thumbnail_example.

(** A thumbnail column that holds numbers. *)
Definition numeric_thumbnail_example : frame :=
  Frame ["price_value"; "thumbnail"]
    [ listing [("price_value", CNum (num_of_Z 500)); ("thumbnail", CNum (num_of_Z 7))] ].

(** The JSON text of an object with one text member. *)
Definition json_member (key value : string) : string :=
  quoted key ++ ":" ++ quoted value.

(** Three listings: a location with a municipality and a state, no location,
    and a location that is not JSON. *)
Definition location_example : frame :=
  Frame ["price_value"; "locationdetails"; "listid"]
    [ listing [("price_value", CStr "500");
               ("locationdetails",
                CStr ("{" ++ json_member "municipality" "Manaus" ++ ","
                      ++ json_member "uf" "AM" ++ "}"));
               ("listid", CStr "1234")];
      listing [("price_value", CStr "600"); ("locationdetails", CNull);
               ("listid", CNull)];
      listing [("price_value", CStr "700"); ("locationdetails", CStr "Manaus, AM");
               ("listid", CStr "A-77")] ].

Definition location_base : frame := Eval vm_compute in base_table_of location_example.

(** A [properties] text whose second entry is a number, not an object. *)
Definition malformed_properties : string :=
  "[" ++ property_entry "rooms" (quoted "3") ++ ",5]".

(** Prices between 100 and 600, at least one room. *)
Definition cheap_with_rooms : criteria :=
  Criteria None None None None None None
           (Some (num_of_Z 100, num_of_Z 600)) (Some (num_of_Z 0, num_of_Z 10))
           None None None None.

(** The text is made of white space only. *)
Fixpoint blank (s : string) : bool :=
  match s with
  | EmptyString => true
  | String a s' => is_space a && blank s'
  end.

(** A URL with a double quote in it. *)
Definition quoted_url : string := "http://img.example/a" ++ dquote ++ "b.jpg".

(** Two entries for [rooms]: the text 2, then the number 3. *)
Definition rooms_twice : list json :=
  [ JObj [("name", JStr "rooms"); ("value", JStr "2")];
    JObj [("name", JStr "rooms"); ("value", JNum (num_of_Z 3))] ].

(** The data of a table with one listing, whose thumbnail is a URL. *)
Definition one_thumbnail_table : list (gmap string cell) :=
  [ {["thumbnail_link" := CStr (thumbnail_markup "http://img.example/1.jpg")]} ].

(** The columns lines 61-145 assign. *)
Definition assigned_columns : list string :=
  ["id"; "date"; "price_value"; "listid"; "locationdetails"; "municipality"; "ddd";
   "neighbourhood"; "uf"; "properties"; "category"; "real_estate_type"; "rooms";
   "bathrooms"; "garage_spaces"; "thumbnail_link"].

(** * Properties *)

(** ** Exceptions, masks and columns *)

Lemma filterM_pure {A} (p : A → outcome bool) (q : A → bool) (l : list A) :
  (∀ a, a ∈ l → p a = Ok (q a)) →
  filterM p l = Ok (filter (λ a, q a = true) l).
Proof.
  induction l as [|a l IH]; intros Hp; [done|].
  cbn [filterM]. rewrite (Hp a) by left. cbn.
  rewrite IH by (intros; apply Hp; by right). cbn.
  destruct (q a); by case_decide.
Qed.

Lemma traverse_length {A B} (f : A → outcome B) (l : list A) (bs : list B) :
  traverse f l = Ok bs → length bs = length l.
Proof.
  revert bs. induction l as [|a l IH]; intros bs; cbn.
  - by intros [= <-].
  - destruct (f a); [|done]. cbn. destruct (traverse f l); [|done].
    cbn. intros [= <-]. cbn. f_equal. by apply IH.
Qed.

Lemma bool_decide_elem_of_cons (c x : string) (l : list string) :
  bool_decide (c ∈ x :: l) = bool_decide (c = x) || bool_decide (c ∈ l).
Proof. rewrite <- bool_decide_or. apply bool_decide_ext, elem_of_cons. Qed.

Lemma bool_decide_elem_of_nil (c : string) : bool_decide (c ∈ @nil string) = false.
Proof. apply bool_decide_eq_false_2, not_elem_of_nil. Qed.

(** Case analysis on every [bool_decide] of the goal, as booleans. *)
Ltac cases_bool_decide :=
  repeat match goal with
         | |- context [bool_decide ?P] => destruct (bool_decide P)
         end;
  try done.

Lemma has_column_set_col c c' f df :
  has_column c (set_col c' f df) = bool_decide (c = c') || has_column c df.
Proof.
  unfold has_column, set_col, add_column; cbn.
  destruct (bool_decide_reflect (c' ∈ columns df)).
  - destruct (bool_decide_reflect (c = c')); subst; cbn;
      [by rewrite bool_decide_eq_true_2|done].
  - rewrite <- bool_decide_or. apply bool_decide_ext.
    rewrite elem_of_app, list_elem_of_singleton. tauto.
Qed.

Lemma has_column_set_range c c' df :
  has_column c (set_range c' df) = bool_decide (c = c') || has_column c df.
Proof.
  unfold has_column, set_range, add_column; cbn.
  destruct (bool_decide_reflect (c' ∈ columns df)).
  - destruct (bool_decide_reflect (c = c')); subst; cbn;
      [by rewrite bool_decide_eq_true_2|done].
  - rewrite <- bool_decide_or. apply bool_decide_ext.
    rewrite elem_of_app, list_elem_of_singleton. tauto.
Qed.

Lemma has_column_if_column c c' f df :
  has_column c (if_column c' (set_col c' f) df) = has_column c df.
Proof.
  unfold if_column. destruct (has_column c' df) eqn:E; [|done].
  rewrite has_column_set_col. case_bool_decide; subst; [by rewrite E|done].
Qed.

Lemma records_set_col c f df : records (set_col c f df) = row_set c f <$> records df.
Proof. done. Qed.

Lemma records_if_column c f df :
  records (if_column c (set_col c f) df)
  = (if has_column c df then row_set c f else id) <$> records df.
Proof.
  unfold if_column. destruct (has_column c df); [done|]. by rewrite list_fmap_id.
Qed.

Section IngestionFacts.
Context `{RT : Runtime}.

Lemma records_split_location df :
  records (split_location df) = location_row (has_column "locationdetails" df) <$> records df.
Proof.
  unfold split_location, location_row.
  destruct (has_column "locationdetails" df); cbv zeta;
    rewrite !records_set_col, <- !list_fmap_compose; done.
Qed.

Lemma records_split_properties df :
  records (split_properties df) = properties_row (has_column "properties" df) <$> records df.
Proof.
  unfold split_properties, properties_row.
  destruct (has_column "properties" df); cbv zeta;
    rewrite !records_set_col, <- !list_fmap_compose; done.
Qed.

Lemma has_column_split_location c df :
  has_column c (split_location df)
  = bool_decide (c ∈ ["municipality"; "ddd"; "neighbourhood"; "uf"]) || has_column c df.
Proof.
  unfold split_location.
  destruct (has_column "locationdetails" df) eqn:E; cbv zeta;
    rewrite !has_column_set_col, !bool_decide_elem_of_cons, bool_decide_elem_of_nil;
    [destruct (bool_decide_reflect (c = "locationdetails")); subst; rewrite ?E|];
    cases_bool_decide.
Qed.

Lemma has_column_split_properties c df :
  has_column c (split_properties df)
  = bool_decide (c ∈ ["category"; "real_estate_type"; "rooms"; "bathrooms"; "garage_spaces"])
    || has_column c df.
Proof.
  unfold split_properties.
  destruct (has_column "properties" df) eqn:E; cbv zeta;
    rewrite !has_column_set_col, !bool_decide_elem_of_cons, bool_decide_elem_of_nil;
    [destruct (bool_decide_reflect (c = "properties")); subst; rewrite ?E|];
    cases_bool_decide.
Qed.

Lemma fill_column_ok c v df :
  has_column c df = true →
  fill_column c v df = Ok (set_col c (λ r, fillna v (cell_at c r)) df).
Proof. intros H. unfold fill_column, column. by rewrite H. Qed.

Lemma fill_column_missing c v df :
  has_column c df = false → fill_column c v df = Raise (KeyError c).
Proof. intros H. unfold fill_column, column. by rewrite H. Qed.

Lemma records_set_range c df :
  records (set_range c df)
  = imap (λ i, row_set c (λ _, CNum (num_of_Z (Z.of_nat i + 1)))) (records df).
Proof. done. Qed.

(** Rewrites a column test on a frame under construction into tests on the
    frame it started from, and decides the comparisons of column names. *)
Ltac has_column_simpl :=
  rewrite ?has_column_set_col, ?has_column_split_properties, ?has_column_split_location,
    ?has_column_if_column, ?has_column_set_range,
    ?bool_decide_elem_of_cons, ?bool_decide_elem_of_nil;
  repeat match goal with
         | |- context [bool_decide (String ?a ?s = String ?b ?t)] =>
             let v := eval vm_compute in (bool_decide (String a s = String b t)) in
             let H := fresh in
             assert (H : bool_decide (String a s = String b t) = v)
               by (vm_compute; reflexivity);
             rewrite !H; clear H
         end;
  rewrite ?orb_false_l, ?orb_true_l, ?orb_false_r, ?orb_true_r.

Lemma fill_column_bind {A} c v df (k : frame → outcome A) :
  has_column c df = true →
  (fill_column c v df ≫= k) = k (set_col c (λ r, fillna v (cell_at c r)) df).
Proof. intros H. by rewrite fill_column_ok. Qed.

Lemma normalize_ok raw :
  has_column "price_value" raw = true →
  ∃ norm, normalize raw = Ok norm
    ∧ records norm = imap (normalize_row raw) (records raw)
    ∧ ∀ c, has_column c norm = bool_decide (c ∈ derived_columns) || has_column c raw.
Proof.
  intros Hprice. unfold normalize; cbv zeta.
  rewrite (fill_column_bind "municipality") by (has_column_simpl; reflexivity).
  rewrite (fill_column_bind "ddd") by (has_column_simpl; reflexivity).
  rewrite (fill_column_bind "neighbourhood") by (has_column_simpl; reflexivity).
  rewrite (fill_column_bind "uf") by (has_column_simpl; reflexivity).
  rewrite (fill_column_ok "price_value") by (has_column_simpl; by rewrite Hprice).
  eexists; split; [reflexivity|split].
  - rewrite !records_set_col, records_split_properties, records_split_location,
      !records_if_column, records_set_range.
    has_column_simpl.
    rewrite <- !list_fmap_compose, fmap_imap. apply imap_ext. intros i r _.
    reflexivity.
  - intros c. unfold derived_columns. has_column_simpl.
    repeat match goal with
           | |- context [bool_decide (c = ?x)] =>
               destruct (bool_decide_reflect (c = x)) as [->|_];
               [has_column_simpl; rewrite ?Hprice; reflexivity|]
           end.
    by rewrite ?orb_false_l.
Qed.

(** Without a price column the module stops at line 133. *)
Lemma normalize_missing_price raw :
  has_column "price_value" raw = false → normalize raw = Raise (KeyError "price_value").
Proof.
  intros Hprice. unfold normalize; cbv zeta.
  rewrite (fill_column_bind "municipality") by (has_column_simpl; reflexivity).
  rewrite (fill_column_bind "ddd") by (has_column_simpl; reflexivity).
  rewrite (fill_column_bind "neighbourhood") by (has_column_simpl; reflexivity).
  rewrite (fill_column_bind "uf") by (has_column_simpl; reflexivity).
  apply fill_column_missing. has_column_simpl. by rewrite Hprice.
Qed.

Lemma cell_at_row_set_eq c f r : cell_at c (row_set c f r) = f r.
Proof. unfold cell_at, row_set. by rewrite lookup_insert_eq. Qed.

Lemma cell_at_row_set_ne k c f r : k ≠ c → cell_at k (row_set c f r) = cell_at k r.
Proof. intros. unfold cell_at, row_set. by rewrite lookup_insert_ne. Qed.

Lemma cell_at_if_row_set k c f (b : bool) r :
  k ≠ c → cell_at k ((if b then row_set c f else id) r) = cell_at k r.
Proof. intros. destruct b; [by apply cell_at_row_set_ne|done]. Qed.

Lemma cell_at_location_row k has r :
  k ∉ ["locationdetails"; "municipality"; "ddd"; "neighbourhood"; "uf"] →
  cell_at k (location_row has r) = cell_at k r.
Proof.
  rewrite !not_elem_of_cons. intros (? & ? & ? & ? & ? & _).
  unfold location_row, compose. destruct has; by rewrite !cell_at_row_set_ne.
Qed.

Lemma cell_at_properties_row k has r :
  k ∉ ["properties"; "category"; "real_estate_type"; "rooms"; "bathrooms";
       "garage_spaces"] →
  cell_at k (properties_row has r) = cell_at k r.
Proof.
  rewrite !not_elem_of_cons. intros (? & ? & ? & ? & ? & ? & _).
  unfold properties_row, compose. destruct has; by rewrite !cell_at_row_set_ne.
Qed.

(** A column name is not among the names of a list of literals. *)
Ltac not_a_column := rewrite !not_elem_of_cons; repeat split; try done; apply not_elem_of_nil.

Lemma normalize_row_id raw i r :
  cell_at "id" (normalize_row raw i r) = CNum (num_of_Z (Z.of_nat i + 1)).
Proof.
  unfold normalize_row, compose.
  rewrite !cell_at_row_set_ne by done.
  rewrite cell_at_properties_row, cell_at_location_row by not_a_column.
  rewrite !cell_at_if_row_set by done.
  apply cell_at_row_set_eq.
Qed.

Lemma normalize_row_price raw i r :
  has_column "price_value" raw = true →
  cell_at "price_value" (normalize_row raw i r) = normal_price r.
Proof.
  intros Hprice. unfold normalize_row, compose, normal_price.
  rewrite cell_at_row_set_eq. f_equal.
  rewrite !cell_at_row_set_ne by done.
  rewrite cell_at_properties_row, cell_at_location_row by not_a_column.
  rewrite cell_at_if_row_set by done.
  rewrite Hprice, cell_at_row_set_eq. f_equal.
  rewrite cell_at_if_row_set by done.
  by apply cell_at_row_set_ne.
Qed.

(** The [properties] text the decoding of a row starts from. *)
Lemma properties_before_decoding raw i r :
  cell_at "properties"
    (location_row (has_column "locationdetails" raw)
       ((if has_column "listid" raw
         then row_set "listid" (λ r, CStr (astype_str (cell_at "listid" r))) else id)
          ((if has_column "price_value" raw
            then row_set "price_value" (λ r, to_numeric (cell_at "price_value" r)) else id)
             ((if has_column "date" raw
               then row_set "date" (λ r, time_cell (to_datetime_s (cell_at "date" r)))
               else id)
                (row_set "id" (λ _, CNum (num_of_Z (Z.of_nat i + 1))) r)))))
  = cell_at "properties" r.
Proof.
  rewrite cell_at_location_row by not_a_column.
  rewrite !cell_at_if_row_set by done.
  by apply cell_at_row_set_ne.
Qed.

Lemma normalize_row_rooms raw i r :
  cell_at "rooms" (normalize_row raw i r)
  = numeric_or_zero (source_property raw prop_rooms r).
Proof.
  unfold normalize_row, compose, source_property.
  rewrite !cell_at_row_set_ne by done.
  rewrite cell_at_row_set_eq. f_equal.
  unfold properties_row, compose.
  destruct (has_column "properties" raw).
  - rewrite !cell_at_row_set_ne by done. rewrite cell_at_row_set_eq.
    rewrite !cell_at_row_set_ne by done. rewrite cell_at_row_set_eq.
    cbn [astype_str]. by rewrite properties_before_decoding.
  - rewrite !cell_at_row_set_ne by done. by rewrite cell_at_row_set_eq.
Qed.

Lemma normalize_row_bathrooms raw i r :
  cell_at "bathrooms" (normalize_row raw i r)
  = numeric_or_zero (source_property raw prop_bathrooms r).
Proof.
  unfold normalize_row, compose, source_property.
  rewrite !cell_at_row_set_ne by done.
  rewrite cell_at_row_set_eq. f_equal.
  rewrite cell_at_row_set_ne by done.
  unfold properties_row, compose.
  destruct (has_column "properties" raw).
  - rewrite !cell_at_row_set_ne by done. rewrite cell_at_row_set_eq.
    rewrite !cell_at_row_set_ne by done. rewrite cell_at_row_set_eq.
    cbn [astype_str]. by rewrite properties_before_decoding.
  - rewrite !cell_at_row_set_ne by done. by rewrite cell_at_row_set_eq.
Qed.

Lemma normalize_row_garage_spaces raw i r :
  cell_at "garage_spaces" (normalize_row raw i r)
  = numeric_or_zero (source_property raw prop_garage_spaces r).
Proof.
  unfold normalize_row, compose, source_property.
  rewrite !cell_at_row_set_ne by done.
  rewrite cell_at_row_set_eq. f_equal.
  rewrite !cell_at_row_set_ne by done.
  unfold properties_row, compose.
  destruct (has_column "properties" raw).
  - rewrite cell_at_row_set_eq.
    rewrite !cell_at_row_set_ne by done. rewrite cell_at_row_set_eq.
    cbn [astype_str]. by rewrite properties_before_decoding.
  - by rewrite cell_at_row_set_eq.
Qed.

Lemma normal_price_numeric r : ∃ p, normal_price r = CNum p.
Proof.
  unfold normal_price, to_numeric, fillna, zero.
  destruct (cell_at "price_value" r); cbn; eauto.
  destruct (floatify s); cbn; eauto.
Qed.

Lemma between_normal_price r :
  between (num_of_Z 100) (num_of_Z 10000) (normal_price r)
  = Ok (in_price_range (normal_price r)).
Proof. destruct (normal_price_numeric r) as [p ->]. done. Qed.

Lemma imap_zip_seq {A B} (f : nat → A → B) (l : list A) k :
  imap (λ i, f (k + i)%nat) l = (λ ia, f ia.1 ia.2) <$> zip (seq k (length l)) l.
Proof.
  revert k. induction l as [|a l IH]; intros k; [done|].
  cbn. rewrite Nat.add_0_r. f_equal. rewrite <- IH.
  apply imap_ext. intros i x _. cbn. f_equal. lia.
Qed.

Lemma filter_fmap {A B} (f : A → B) (P : B → Prop) `{!∀ b, Decision (P b)} (l : list A) :
  filter P (f <$> l) = f <$> filter (λ a, P (f a)) l.
Proof.
  induction l as [|a l IH]; [done|].
  rewrite fmap_cons, !filter_cons, IH. by destruct (decide (P (f a))).
Qed.

(** Lines 61-135 on the rows: the survivors, normalised. *)
Lemma range_filter_normalize raw :
  has_column "price_value" raw = true →
  ∃ view, (normalize raw ≫= range_filter) = Ok view
    ∧ records view = (λ ir, normalize_row raw ir.1 ir.2) <$> survivors raw
    ∧ ∀ c, has_column c view = bool_decide (c ∈ derived_columns) || has_column c raw.
Proof.
  intros Hprice.
  destruct (normalize_ok raw Hprice) as (norm & -> & Hrows & Hcols).
  cbn [mbind outcome_bind]. unfold range_filter, where_, column.
  rewrite Hcols, Hprice, orb_true_r. cbn [mbind outcome_bind].
  rewrite (filterM_pure _ (λ r, in_price_range (cell_at "price_value" r))).
  - eexists; split; [reflexivity|split; [|exact Hcols]].
    cbn [records]. rewrite Hrows.
    rewrite (imap_zip_seq (normalize_row raw) _ 0), filter_fmap.
    unfold survivors. f_equal. apply list_filter_iff. intros [i r]; cbn.
    by rewrite normalize_row_price.
  - intros r. rewrite Hrows, (imap_zip_seq (normalize_row raw) _ 0).
    intros ([i r0] & -> & _)%list_elem_of_fmap. cbn.
    rewrite normalize_row_price by done. apply between_normal_price.
Qed.

Lemma zip_with_const_l {A B C} (f : A → B → C) (a : A) (l : list B) :
  zip_with f (replicate (length l) a) l = f a <$> l.
Proof. induction l; f_equal/=; done. Qed.

(** The base table, row by row: the surviving raw rows, normalised, each
    with its thumbnail markup added. *)
Lemma ingest_rows raw base :
  ingest raw = Ok base →
  has_column "price_value" raw = true
  ∧ ∃ links, length links = length (survivors raw)
      ∧ records base
        = zip_with (λ link ir, <["thumbnail_link" := CStr link]> (normalize_row raw ir.1 ir.2))
                   links (survivors raw).
Proof.
  unfold ingest. destruct (has_column "price_value" raw) eqn:Hprice.
  - destruct (range_filter_normalize raw Hprice) as (view & Hview & Hrows & _).
    intros Hbase. split; [done|]. revert Hbase.
    destruct (normalize raw) as [norm|]; [|done]. cbn [mbind outcome_bind] in *.
    rewrite Hview. cbn [mbind outcome_bind]. unfold add_thumbnails.
    destruct (has_column "thumbnail" view).
    + destruct (traverse (λ r, create_thumbnail_html (cell_at "thumbnail" r))
                         (records view)) as [links|] eqn:Hlinks; [|done].
      cbn [mbind outcome_bind]. intros [= <-]. exists links.
      apply traverse_length in Hlinks. rewrite Hrows, length_fmap in Hlinks.
      split; [done|]. cbn [records]. rewrite Hrows. by rewrite zip_with_fmap_r.
    + intros [= <-]. exists (replicate (length (survivors raw)) "").
      split; [by rewrite length_replicate|].
      cbn [records set_col]. rewrite Hrows, zip_with_const_l.
      by rewrite <- list_fmap_compose.
  - by rewrite normalize_missing_price.
Qed.

Lemma fmap_zip_with_snd {A B C D} (f : A → B → C) (g : C → D) (h : B → D)
    (l : list A) (k : list B) :
  (∀ a b, g (f a b) = h b) → length l = length k → g <$> zip_with f l k = h <$> k.
Proof.
  intros Hg. revert k. induction l as [|a l IH]; intros [|b k] ?; simplify_eq/=; [done|].
  f_equal; auto.
Qed.

(** A column of the base table other than the thumbnail markup, read off the
    surviving raw rows. *)
Lemma base_column raw base k :
  ingest raw = Ok base → k ≠ "thumbnail_link" →
  cell_at k <$> records base
  = (λ ir, cell_at k (normalize_row raw ir.1 ir.2)) <$> survivors raw.
Proof.
  intros (_ & links & Hlen & ->)%ingest_rows Hk.
  apply fmap_zip_with_snd; [|done].
  intros link ir. unfold cell_at. by rewrite lookup_insert_ne.
Qed.

Lemma cell_at_num k (r : gmap string cell) x : cell_at k r = CNum x → r !! k = Some (CNum x).
Proof. unfold cell_at. destruct (r !! k); cbn; congruence. Qed.

Lemma elem_of_column {A} (g : gmap string cell → A) (r : gmap string cell)
    (rows : list (gmap string cell)) :
  r ∈ rows → g r ∈ g <$> rows.
Proof. apply list_elem_of_fmap_2. Qed.

Lemma survivors_prices raw :
  (λ ir : nat * gmap string cell, normal_price ir.2) <$> survivors raw
  = filter (λ c, in_price_range c = true) (normal_price <$> records raw).
Proof.
  unfold survivors.
  transitivity (filter (λ c, in_price_range c = true)
                  (normal_price <$> (zip (seq 0 (length (records raw))) (records raw)).*2)).
  - by rewrite <- list_fmap_compose, filter_fmap.
  - by rewrite snd_zip by (by rewrite length_seq).
Qed.

(** C1.  In the base table of any raw frame every row has a numeric
    [price_value] between 100 and 10000, both included; and the prices of the
    base table are the prices of the raw rows (the number each holds or
    spells, 0 when it holds none) with those outside the range left out, in
    order: rows are dropped, no price is clamped or edited. *)
Theorem base_table_price_in_range raw base :
  ingest raw = Ok base →
  (∀ r, r ∈ records base →
     ∃ p, r !! "price_value" = Some (CNum p)
          ∧ num_leb (num_of_Z 100) p = true ∧ num_leb p (num_of_Z 10000) = true)
  ∧ cell_at "price_value" <$> records base
    = filter (λ c, in_price_range c = true) (normal_price <$> records raw).
Proof.
  intros Hbase.
  assert (Hprices : cell_at "price_value" <$> records base
                    = filter (λ c, in_price_range c = true) (normal_price <$> records raw)).
  { rewrite (base_column raw base) by done. rewrite <- survivors_prices.
    apply list_fmap_ext. intros _ [i r] _. cbn.
    apply normalize_row_price. by apply ingest_rows in Hbase as [? _]. }
  split; [|done]. intros r Hr.
  apply (elem_of_column (cell_at "price_value")) in Hr.
  rewrite Hprices in Hr. apply list_elem_of_filter in Hr as [Hrange _].
  destruct (cell_at "price_value" r) as [|p| | | |] eqn:Hp; try done.
  exists p. split; [by apply cell_at_num|]. by apply andb_true_iff in Hrange.
Qed.

Lemma has_column_add_column c k cols :
  bool_decide (c ∈ add_column k cols) = bool_decide (c = k) || bool_decide (c ∈ cols).
Proof.
  unfold add_column. destruct (bool_decide_reflect (k ∈ cols)).
  - destruct (bool_decide_reflect (c = k)); subst; cbn;
      [by rewrite bool_decide_eq_true_2|done].
  - rewrite <- bool_decide_or. apply bool_decide_ext.
    rewrite elem_of_app, list_elem_of_singleton. tauto.
Qed.

(** The columns of the base table: those of the raw frame and the derived
    ones. *)
Lemma ingest_columns raw base c :
  ingest raw = Ok base →
  has_column c base
  = bool_decide (c = "thumbnail_link") || (bool_decide (c ∈ derived_columns) || has_column c raw).
Proof.
  unfold ingest. destruct (has_column "price_value" raw) eqn:Hprice.
  - destruct (range_filter_normalize raw Hprice) as (view & Hview & _ & Hcols).
    destruct (normalize raw) as [norm|]; [|done]. cbn [mbind outcome_bind] in *.
    rewrite Hview. cbn [mbind outcome_bind]. unfold add_thumbnails.
    destruct (has_column "thumbnail" view).
    + destruct (traverse (λ r, create_thumbnail_html (cell_at "thumbnail" r))
                         (records view)) as [links|]; [|done].
      cbn [mbind outcome_bind]. intros [= <-]. unfold has_column at 1. cbn [columns].
      by rewrite has_column_add_column, <- Hcols.
    + intros [= <-]. by rewrite has_column_set_col, Hcols.
  - by rewrite normalize_missing_price.
Qed.

Lemma normalize_row_date raw i r :
  has_column "date" raw = true →
  cell_at "date" (normalize_row raw i r) = time_cell (to_datetime_s (cell_at "date" r)).
Proof.
  intros Hdate. unfold normalize_row, compose.
  rewrite !cell_at_row_set_ne by done.
  rewrite cell_at_properties_row, cell_at_location_row by not_a_column.
  rewrite !cell_at_if_row_set by done.
  rewrite Hdate, cell_at_row_set_eq. do 2 f_equal.
  by apply cell_at_row_set_ne.
Qed.

(** In a base table a date is a timestamp or missing. *)
Lemma base_dates raw base r :
  ingest raw = Ok base → has_column "date" raw = true → r ∈ records base →
  ∃ t, cell_at "date" r = time_cell t.
Proof.
  intros Hbase Hdate Hr. apply (elem_of_column (cell_at "date")) in Hr.
  rewrite (base_column raw base) in Hr by done.
  apply list_elem_of_fmap in Hr as ([i r0] & -> & _). cbn.
  rewrite normalize_row_date by done. eauto.
Qed.

(** *** Identifiers *)

Lemma filter_zip_seq_sorted {A} (P : nat * A → Prop) `{!∀ x, Decision (P x)}
    (l : list A) (k : nat) :
  StronglySorted lt (filter P (zip (seq k (length l)) l)).*1
  ∧ Forall (λ i, k ≤ i < k + length l)%nat (filter P (zip (seq k (length l)) l)).*1.
Proof.
  revert k. induction l as [|a l IH]; intros k.
  - split; constructor.
  - destruct (IH (S k)) as [Hsorted Hbound].
    cbn [length seq zip zip_with]. rewrite filter_cons.
    assert (Hbound' : Forall (λ i, k ≤ i < k + S (length l))%nat
                        (filter P (zip (seq (S k) (length l)) l)).*1)
      by (eapply Forall_impl; [exact Hbound|]; cbn; lia).
    destruct (decide (P (k, a))); [|done].
    split; cbn [fmap list_fmap fst].
    + constructor; [done|]. eapply Forall_impl; [exact Hbound|]. cbn; lia.
    + constructor; [lia|done].
Qed.

Lemma filter_all_of_length {A} (P : A → Prop) `{!∀ x, Decision (P x)} (l : list A) :
  length (filter P l) = length l → filter P l = l.
Proof.
  induction l as [|a l IH]; [done|]. rewrite filter_cons.
  destruct (decide (P a)); cbn.
  - intros [=]. f_equal. auto.
  - pose proof (length_filter P l). lia.
Qed.

Lemma length_survivors raw base :
  ingest raw = Ok base → length (records base) = length (survivors raw).
Proof.
  intros (_ & links & Hlen & ->)%ingest_rows. rewrite length_zip_with. lia.
Qed.

(** C3, as the code has it.  Identifiers are given to the rows of the raw
    input, 1 for the first, before the range filter; a row that survives
    keeps the one it got.  So the identifiers of the base table are those of
    the surviving positions: strictly increasing in row order (hence unique),
    each between 1 and the number of raw rows; and they are the dense
    sequence 1..N when the filter dropped no row. *)
Theorem identifiers_of_base_table raw base :
  ingest raw = Ok base →
  identifiers base = identifier_at <$> (survivors raw).*1
  ∧ StronglySorted lt (survivors raw).*1
  ∧ Forall (λ k, k < length (records raw))%nat (survivors raw).*1
  ∧ (length (records base) = length (records raw) →
     identifiers base = dense_identifiers (length (records base))).
Proof.
  intros Hbase.
  assert (Hids : identifiers base = identifier_at <$> (survivors raw).*1).
  { unfold identifiers. rewrite (base_column raw base) by done.
    rewrite <- list_fmap_compose. apply list_fmap_ext. intros _ [i r] _. cbn.
    apply normalize_row_id. }
  destruct (filter_zip_seq_sorted
              (λ ir : nat * gmap string cell, in_price_range (normal_price ir.2) = true)
              (records raw) 0) as [Hsorted Hbound].
  split; [done|]. split; [done|].
  split; [eapply Forall_impl; [exact Hbound|]; cbn; lia|].
  intros Hlen. rewrite Hids. unfold dense_identifiers. f_equal.
  rewrite Hlen. rewrite (length_survivors raw base Hbase) in Hlen.
  unfold survivors in *. rewrite filter_all_of_length.
  - apply fst_zip. by rewrite length_seq.
  - by rewrite Hlen, length_zip, length_seq, Nat.min_id.
Qed.

(** *** Property counts *)

Lemma numeric_or_zero_numeric v : ∃ x, numeric_or_zero v = CNum x.
Proof.
  unfold numeric_or_zero, to_numeric, fillna, zero.
  destruct v; cbn; eauto. destruct (floatify s); cbn; eauto.
Qed.

Lemma numeric_or_zero_cases v x :
  numeric_or_zero v = CNum x →
  (to_numeric v = CNull ∧ x = num_of_Z 0) ∨ to_numeric v = CNum x.
Proof.
  unfold numeric_or_zero, fillna, zero.
  destruct (to_numeric v); cbn; intros [= <-]; auto.
Qed.

(** The three counts of the base table, read off the surviving raw rows. *)
Lemma property_count_columns raw base :
  ingest raw = Ok base →
  cell_at "rooms" <$> records base
  = (λ ir, numeric_or_zero (source_property raw prop_rooms ir.2)) <$> survivors raw
  ∧ cell_at "bathrooms" <$> records base
    = (λ ir, numeric_or_zero (source_property raw prop_bathrooms ir.2)) <$> survivors raw
  ∧ cell_at "garage_spaces" <$> records base
    = (λ ir, numeric_or_zero (source_property raw prop_garage_spaces ir.2))
      <$> survivors raw.
Proof.
  intros Hbase. repeat split; rewrite (base_column raw base) by done;
    apply list_fmap_ext; intros _ [i r] _.
  - apply normalize_row_rooms.
  - apply normalize_row_bathrooms.
  - apply normalize_row_garage_spaces.
Qed.

(** C2, as the code has it.  In the base table [rooms], [bathrooms] and
    [garage_spaces] are never missing and always numbers: row by row they are
    the value the [properties] field supplies for them, coerced to a number,
    and 0 when it supplies none or one that is not a number.  Nothing clamps
    them: such a cell is below 0 only when the number supplied is. *)
Theorem property_counts_of_base_table raw base :
  ingest raw = Ok base →
  (∀ r k, r ∈ records base → k ∈ ["rooms"; "bathrooms"; "garage_spaces"] →
     ∃ x, r !! k = Some (CNum x))
  ∧ cell_at "rooms" <$> records base
    = (λ ir, numeric_or_zero (source_property raw prop_rooms ir.2)) <$> survivors raw
  ∧ cell_at "bathrooms" <$> records base
    = (λ ir, numeric_or_zero (source_property raw prop_bathrooms ir.2)) <$> survivors raw
  ∧ cell_at "garage_spaces" <$> records base
    = (λ ir, numeric_or_zero (source_property raw prop_garage_spaces ir.2)) <$> survivors raw
  ∧ (∀ v x, numeric_or_zero v = CNum x → num_leb (num_of_Z 0) x = false →
       to_numeric v = CNum x).
Proof.
  intros Hbase.
  destruct (property_count_columns raw base Hbase) as (Hrooms & Hbath & Hgarage).
  repeat split; try done.
  - intros r k Hr Hk.
    cut (∃ x, cell_at k r = CNum x); [intros [x Hx]; exists x; by apply cell_at_num|].
    rewrite !elem_of_cons in Hk.
    destruct Hk as [->|[->|[->|Hk]]]; [| | |by apply not_elem_of_nil in Hk].
    + apply (elem_of_column (cell_at "rooms")) in Hr. rewrite Hrooms in Hr.
      apply list_elem_of_fmap in Hr as (ir & -> & _). apply numeric_or_zero_numeric.
    + apply (elem_of_column (cell_at "bathrooms")) in Hr. rewrite Hbath in Hr.
      apply list_elem_of_fmap in Hr as (ir & -> & _). apply numeric_or_zero_numeric.
    + apply (elem_of_column (cell_at "garage_spaces")) in Hr. rewrite Hgarage in Hr.
      apply list_elem_of_fmap in Hr as (ir & -> & _). apply numeric_or_zero_numeric.
  - intros v x [[_ ->]|Hv]%numeric_or_zero_cases; [done|by intros _].
Qed.

(** *** When the module loads *)

Lemma traverse_ok {A B} (f : A → outcome B) (l : list A) :
  (∀ a, a ∈ l → ∃ b, f a = Ok b) → ∃ bs, traverse f l = Ok bs.
Proof.
  induction l as [|a l IH]; intros Hf; [by eexists|].
  destruct (Hf a) as [b Hb]; [left|].
  destruct IH as [bs Hbs]; [intros; apply Hf; by right|].
  exists (b :: bs). cbn [traverse]. by rewrite Hb, Hbs.
Qed.

Lemma normalize_row_thumbnail raw i r :
  cell_at "thumbnail" (normalize_row raw i r) = cell_at "thumbnail" r.
Proof.
  unfold normalize_row, compose.
  rewrite !cell_at_row_set_ne by done.
  rewrite cell_at_properties_row, cell_at_location_row by not_a_column.
  rewrite !cell_at_if_row_set by done.
  by apply cell_at_row_set_ne.
Qed.

End IngestionFacts.

(** ** The dashboard callback *)

Section CallbackFacts.
Context `{RT : Runtime}.

Lemma agregar_no_rows cols : agregar (Frame cols []) = Ok no_data_dashboard.
Proof. reflexivity. Qed.

(** C8.  When the criteria leave no row, the aggregation raises nothing and
    the callback hands back the empty-input marker of every part, spelled
    out here field by field: the table has no rows; the price histogram, the
    category bar chart and the three box plots carry no data and the title
    "Sem dados para exibir" (the histogram also its x-axis title); the
    statistics are the message "Sem dados para exibir estatisticas." (with
    its accent); the total is 0 and mean price, median price and mean rooms
    are the literal 0. *)
Theorem empty_view_gives_markers c df view :
  filtrar c df = Ok view → records view = [] →
  ∃ d, agregar view = Ok d
    ∧ atualizar_dashboard c df = (Ok d, df)
    ∧ dados_tabela d = []
    ∧ grafico_precos d
      = {| fig_chart := Histogram; fig_data := NoData; fig_x := None; fig_y := None;
           fig_nbins := None; fig_labels := []; fig_template := None;
           fig_title := Some "Sem dados para exibir";
           fig_xaxis_title := Some ("Pre" ++ chr 231 ++ "o (R$)") |}
    ∧ grafico_categorias d
      = {| fig_chart := Bar; fig_data := NoData; fig_x := None; fig_y := None;
           fig_nbins := None; fig_labels := []; fig_template := None;
           fig_title := Some "Sem dados para exibir"; fig_xaxis_title := None |}
    ∧ analise_estatistica d
      = Message ("Sem dados para exibir estat" ++ chr 237 ++ "sticas.")
    ∧ total_imoveis d = 0%nat
    ∧ preco_medio d = Literal 0
    ∧ preco_mediano d = Literal 0
    ∧ quartos_medios d = Literal 0
    ∧ grafico_preco_bairro d
      = {| fig_chart := Box; fig_data := NoData; fig_x := None; fig_y := None;
           fig_nbins := None; fig_labels := []; fig_template := None;
           fig_title := Some "Sem dados para exibir"; fig_xaxis_title := None |}
    ∧ grafico_preco_municipio d
      = {| fig_chart := Box; fig_data := NoData; fig_x := None; fig_y := None;
           fig_nbins := None; fig_labels := []; fig_template := None;
           fig_title := Some "Sem dados para exibir"; fig_xaxis_title := None |}
    ∧ grafico_preco_categoria d
      = {| fig_chart := Box; fig_data := NoData; fig_x := None; fig_y := None;
           fig_nbins := None; fig_labels := []; fig_template := None;
           fig_title := Some "Sem dados para exibir"; fig_xaxis_title := None |}.
Proof.
  intros Hview Hrows. destruct view as [cols rows]. cbn in Hrows. subst rows.
  destruct (agregar (Frame cols [])) as [d|e] eqn:Hagg; [|discriminate Hagg].
  exists d. split; [reflexivity|]. split.
  - unfold atualizar_dashboard. cbv zeta. rewrite Hview.
    cbn [mbind outcome_bind]. by rewrite Hagg.
  - injection Hagg as <-. repeat split.
Qed.

Lemma filter_isin_unset c values df :
  given_list values = None → filter_isin c values df = Ok df.
Proof. intros H. unfold filter_isin. by rewrite H. Qed.

Lemma filter_date_unset s e df :
  given_text s = None ∨ given_text e = None → filter_date s e df = Ok df.
Proof.
  unfold filter_date. intros [->| ->]; [done|]. by destruct (given_text s).
Qed.

Lemma filtrar_unset c df : unset c → filtrar c df = Ok df.
Proof.
  intros (Hs & He & Hm & Hb & Hc & Ht & Hp & Hq & Hba & Hv & Hpro & Hbusca).
  unfold filtrar.
  rewrite filter_date_unset by auto. cbn [mbind outcome_bind].
  do 4 (rewrite filter_isin_unset by done; cbn [mbind outcome_bind]).
  rewrite Hp, Hq, Hba, Hv, Hpro.
  cbn [mbind outcome_bind filter_range filter_profissional].
  unfold filter_busca. by rewrite Hbusca.
Qed.

(** C9.  With every criterion unset the filters return the base table as it
    is, same columns, same rows, same order; the callback aggregates exactly
    that table, and the global table it leaves behind is the one it found
    (as for any criteria). *)
Theorem no_criteria_is_identity c df :
  unset c →
  filtrar c df = Ok df
  ∧ (atualizar_dashboard c df).1 = agregar df
  ∧ (atualizar_dashboard c df).2 = df
  ∧ (∀ c', (atualizar_dashboard c' df).2 = df).
Proof.
  intros Hc. pose proof (filtrar_unset c df Hc) as Hview.
  split; [done|]. split; [|done].
  unfold atualizar_dashboard. cbv zeta. cbn [fst]. by rewrite Hview.
Qed.

(** *** Columns the table may lack *)

Lemma where_missing c p df :
  has_column c df = false → where_ c p df = Raise (KeyError c).
Proof. intros H. unfold where_, column. by rewrite H. Qed.

Lemma filter_profissional_missing b df :
  has_column "professionalad" df = false →
  filter_profissional (Some b) df = Raise (KeyError "professionalad").
Proof. apply where_missing. Qed.

Lemma filter_date_missing s e df :
  s ≠ "" → e ≠ "" → has_column "date" df = false →
  filter_date (Some s) (Some e) df = Raise (KeyError "date").
Proof.
  intros Hs He H. unfold filter_date, given_text, column.
  rewrite (proj2 (String.eqb_neq s "")), (proj2 (String.eqb_neq e "")) by done.
  by rewrite H.
Qed.

(** Without a [subject] and a [title] column the search leaves the view as
    it is, whatever the term. *)
Lemma filter_busca_no_text_column busca df :
  has_column "subject" df = false → has_column "title" df = false →
  filter_busca busca df = Ok df.
Proof.
  intros Hs Ht. unfold filter_busca. destruct (given_text busca); [|done].
  rewrite !filter_cons, filter_nil, Hs, Ht. by repeat case_decide.
Qed.

(** *** The date range *)

Lemma traverse_pure {A B} (f : A → outcome B) (g : A → B) (l : list A) :
  (∀ a, a ∈ l → f a = Ok (g a)) → traverse f l = Ok (g <$> l).
Proof.
  induction l as [|a l IH]; intros Hf; [done|].
  cbn [traverse]. rewrite (Hf a) by left. cbn [mbind outcome_bind].
  rewrite IH by (intros; apply Hf; by right). done.
Qed.

Lemma loc_mask (q : gmap string cell → bool) cols rows :
  loc (q <$> rows) (Frame cols rows) = Frame cols (filter (λ r, q r = true) rows).
Proof.
  unfold loc. cbn [columns records]. f_equal.
  induction rows as [|r rows IH]; [done|].
  cbn [fmap list_fmap zip zip_with]. rewrite !filter_cons. cbn [snd].
  destruct (decide (q r = true)); cbn [fmap list_fmap fst]; by rewrite <- IH.
Qed.

Lemma filter_date_active s e lo hi df :
  s ≠ "" → e ≠ "" →
  has_column "date" df = true →
  (∀ r, r ∈ records df → ∃ t, cell_at "date" r = time_cell t) →
  Exists (λ r, cell_at "date" r ≠ CNull) (records df) →
  to_datetime s = Ok (Some lo) → to_datetime e = Ok (Some hi) →
  filter_date (Some s) (Some e) df
  = Ok (Frame (columns df)
              (filter (λ r, in_date_range lo hi (cell_at "date" r) = true) (records df))).
Proof.
  intros Hs He Hcol Htimes Hsome Hlo Hhi. unfold filter_date, given_text, column.
  rewrite (proj2 (String.eqb_neq s "")), (proj2 (String.eqb_neq e "")) by done.
  rewrite Hcol. cbn [mbind outcome_bind].
  assert (existsb notna (cell_at "date" <$> records df) = true) as ->.
  { apply existsb_exists. apply Exists_exists in Hsome as (r & Hr & Hdate).
    exists (cell_at "date" r). split; [apply list_elem_of_In; by apply list_elem_of_fmap_2|].
    by destruct (cell_at "date" r). }
  rewrite Hlo. cbn [mbind outcome_bind].
  rewrite (traverse_pure _ (λ c, match c with CTime t => Z.geb t lo | _ => false end)).
  2:{ intros c (r & -> & Hr)%list_elem_of_fmap.
      destruct (Htimes r Hr) as [[t|] ->]; done. }
  cbn [mbind outcome_bind]. rewrite Hhi. cbn [mbind outcome_bind].
  rewrite (traverse_pure _ (λ c, match c with CTime t => Z.leb t hi | _ => false end)).
  2:{ intros c (r & -> & Hr)%list_elem_of_fmap.
      destruct (Htimes r Hr) as [[t|] ->]; done. }
  cbn [mbind outcome_bind]. f_equal.
  destruct df as [cols rows]. cbn [records columns].
  rewrite <- (loc_mask (λ r, in_date_range lo hi (cell_at "date" r))). f_equal.
  clear. induction rows as [|r rows IH]; [done|].
  cbn [fmap list_fmap zip_with]. f_equal; [|exact IH].
  destruct (cell_at "date" r); try done. cbn. by rewrite Z.geb_leb.
Qed.

Lemma given_text_Some o s : given_text o = Some s → o = Some s ∧ s ≠ "".
Proof.
  destruct o as [t|]; [|done]. cbn. destruct (String.eqb_spec t ""); [done|].
  by intros [= <-].
Qed.

Lemma filter_date_all_null s e df :
  has_column "date" df = true →
  Forall (λ r, cell_at "date" r = CNull) (records df) →
  filter_date s e df = Ok df.
Proof.
  intros Hcol Hnull. unfold filter_date, column.
  destruct (given_text s); [|done]. destruct (given_text e); [|done].
  rewrite Hcol. cbn [mbind outcome_bind].
  assert (existsb notna (cell_at "date" <$> records df) = false) as ->; [|done].
  induction Hnull as [|r rows Hr _ IH]; [done|].
  cbn [fmap list_fmap existsb]. by rewrite Hr, IH.
Qed.

(** The date criterion on a base table that has a date column.  It leaves
    the table as it is when a bound is missing and when no row has a date;
    it does not empty it.  With both bounds given (and read as timestamps
    [lo] and [hi]) and a date on at least one row, it keeps exactly the rows
    whose date lies in [lo, hi], both ends included, in their order; every
    row without a date is then left out. *)
Theorem date_range_criterion raw base start_date end_date :
  ingest raw = Ok base → has_column "date" raw = true →
  (given_text start_date = None ∨ given_text end_date = None
   ∨ Forall (λ r, cell_at "date" r = CNull) (records base) →
   filter_date start_date end_date base = Ok base)
  ∧ (∀ s e lo hi,
       given_text start_date = Some s → given_text end_date = Some e →
       Exists (λ r, cell_at "date" r ≠ CNull) (records base) →
       to_datetime s = Ok (Some lo) → to_datetime e = Ok (Some hi) →
       filter_date start_date end_date base
       = Ok (Frame (columns base)
                   (filter (λ r, in_date_range lo hi (cell_at "date" r) = true)
                           (records base)))
       ∧ ∀ r, r ∈ records base →
              (r ∈ filter (λ r, in_date_range lo hi (cell_at "date" r) = true) (records base)
               ↔ ∃ t, cell_at "date" r = CTime t ∧ (lo ≤ t ≤ hi)%Z)).
Proof.
  intros Hbase Hdate.
  assert (has_column "date" base = true) as Hcol.
  { rewrite (ingest_columns raw base "date" Hbase), Hdate. by rewrite !orb_true_r. }
  split.
  - intros [H|[H|H]].
    + apply filter_date_unset. by left.
    + apply filter_date_unset. by right.
    + by apply filter_date_all_null.
  - intros s e lo hi [-> Hs]%given_text_Some [-> He]%given_text_Some Hsome Hlo Hhi.
    split.
    + apply filter_date_active; try done.
      intros r Hr. by apply (base_dates raw base).
    + intros r Hr. rewrite list_elem_of_filter. split.
      * intros [Hin _]. destruct (cell_at "date" r) as [| | | |t|]; try done.
        exists t. split; [done|]. cbn in Hin. apply andb_true_iff in Hin as [? ?]. lia.
      * intros (t & -> & ?). split; [|done]. cbn. apply andb_true_iff. lia.
Qed.

(** *** The search on the text columns *)

(** When the library reads the term as [matches] says, the search keeps the
    rows in which the term matches the text form of one of the text columns
    that are present. *)
Lemma filter_busca_rows term (matches : string → bool) df :
  term ≠ "" → text_columns df ≠ [] →
  (∀ s, re_search_ignorecase term s = Some (matches s)) →
  filter_busca (Some term) df
  = Ok (Frame (columns df)
              (filter (λ r, existsb (λ c, matches (astype_str (cell_at c r)))
                                    (text_columns df) = true)
                      (records df))).
Proof.
  intros Hterm Hcols Hre. unfold filter_busca, given_text.
  rewrite (proj2 (String.eqb_neq term "")) by done.
  fold (text_columns df). destruct (text_columns df) as [|c cols] eqn:Hc; [done|].
  rewrite (filterM_pure _ (λ r, existsb (λ c, matches (astype_str (cell_at c r))) (c :: cols))).
  - done.
  - intros r _. unfold row_matches.
    rewrite (traverse_pure _ (λ c, matches (astype_str (cell_at c r)))).
    + cbn [mbind outcome_bind]. f_equal.
      generalize (c :: cols). intros l. induction l as [|x l IH]; [done|].
      cbn. by rewrite IH.
    + intros x _. by rewrite Hre.
Qed.

End CallbackFacts.

(** ** Concrete frames

    The examples run the program with [Fragment.runtime]. *)

(** *** Prices and identifiers *)

Lemma price_example_ingest :
  ingest (RT := Fragment.runtime) price_example = Ok price_example_base.
Proof. vm_compute. reflexivity. Qed.

(** What the range filter leaves of [price_example]: the second and the
    fifth listing, with the identifiers they were given. *)
Example price_example_rows :
  cell_at "price_value" <$> records price_example_base
  = [CNum (num_of_Z 500); CNum (num_of_Z 10000)]
  ∧ identifiers price_example_base = [CNum (num_of_Z 2); CNum (num_of_Z 5)].
Proof. split; vm_compute; reflexivity. Qed.

Lemma base_table_price_in_range_witness :
  ingest (RT := Fragment.runtime) price_example = Ok price_example_base
  ∧ (∀ r, r ∈ records price_example_base →
       ∃ p, r !! "price_value" = Some (CNum p)
            ∧ num_leb (num_of_Z 100) p = true ∧ num_leb p (num_of_Z 10000) = true)
  ∧ cell_at "price_value" <$> records price_example_base
    = filter (λ c, in_price_range c = true)
             (normal_price (RT := Fragment.runtime) <$> records price_example).
Proof.
  split; [exact price_example_ingest|].
  exact (base_table_price_in_range (RT := Fragment.runtime)
           price_example price_example_base price_example_ingest).
Defined.

(** The range filter drops listings 1, 3, 4 and 6 of [price_example]: the
    identifiers left are 2 and 5, not 1 and 2. *)
Lemma identifiers_not_dense_after_drop :
  ingest (RT := Fragment.runtime) price_example = Ok price_example_base
  ∧ identifiers price_example_base = [CNum (num_of_Z 2); CNum (num_of_Z 5)]
  ∧ dense_identifiers (length (records price_example_base))
    = [CNum (num_of_Z 1); CNum (num_of_Z 2)]
  ∧ identifiers price_example_base
    ≠ dense_identifiers (length (records price_example_base)).
Proof.
  split; [exact price_example_ingest|].
  split; [vm_compute; reflexivity|]. split; [vm_compute; reflexivity|].
  vm_compute. discriminate.
Qed.

Lemma identifiers_of_base_table_witness :
  ingest (RT := Fragment.runtime) price_example = Ok price_example_base
  ∧ identifiers price_example_base
    = identifier_at <$> (survivors (RT := Fragment.runtime) price_example).*1
  ∧ StronglySorted lt (survivors (RT := Fragment.runtime) price_example).*1
  ∧ Forall (λ k, k < length (records price_example))%nat
           (survivors (RT := Fragment.runtime) price_example).*1
  ∧ (length (records price_example_base) = length (records price_example) →
     identifiers price_example_base
     = dense_identifiers (length (records price_example_base))).
Proof.
  split; [exact price_example_ingest|].
  exact (identifiers_of_base_table (RT := Fragment.runtime)
           price_example price_example_base price_example_ingest).
Defined.

(** *** Property counts *)

Lemma negative_rooms_ingest :
  ingest (RT := Fragment.runtime) negative_rooms_example = Ok negative_rooms_base.
Proof. vm_compute. reflexivity. Qed.

(** The listing is in the base table, with -3 rooms. *)
Lemma negative_rooms_survive :
  ingest (RT := Fragment.runtime) negative_rooms_example = Ok negative_rooms_base
  ∧ ∃ r, r ∈ records negative_rooms_base
      ∧ r !! "rooms" = Some (CNum (num_of_Z (-3)))
      ∧ num_leb (num_of_Z 0) (num_of_Z (-3)) = false.
Proof.
  split; [exact negative_rooms_ingest|].
  eexists. split; [apply list_elem_of_here|]. split; vm_compute; reflexivity.
Qed.

Lemma property_counts_of_base_table_witness :
  ingest (RT := Fragment.runtime) negative_rooms_example = Ok negative_rooms_base
  ∧ (∀ r k, r ∈ records negative_rooms_base →
       k ∈ ["rooms"; "bathrooms"; "garage_spaces"] → ∃ x, r !! k = Some (CNum x))
  ∧ cell_at "rooms" <$> records negative_rooms_base
    = (λ ir, numeric_or_zero (RT := Fragment.runtime)
               (source_property (RT := Fragment.runtime) negative_rooms_example
                  prop_rooms ir.2))
      <$> survivors (RT := Fragment.runtime) negative_rooms_example
  ∧ cell_at "bathrooms" <$> records negative_rooms_base
    = (λ ir, numeric_or_zero (RT := Fragment.runtime)
               (source_property (RT := Fragment.runtime) negative_rooms_example
                  prop_bathrooms ir.2))
      <$> survivors (RT := Fragment.runtime) negative_rooms_example
  ∧ cell_at "garage_spaces" <$> records negative_rooms_base
    = (λ ir, numeric_or_zero (RT := Fragment.runtime)
               (source_property (RT := Fragment.runtime) negative_rooms_example
                  prop_garage_spaces ir.2))
      <$> survivors (RT := Fragment.runtime) negative_rooms_example
  ∧ (∀ v x, numeric_or_zero (RT := Fragment.runtime) v = CNum x →
       num_leb (num_of_Z 0) x = false → to_numeric (RT := Fragment.runtime) v = CNum x).
Proof.
  split; [exact negative_rooms_ingest|].
  exact (property_counts_of_base_table (RT := Fragment.runtime)
           negative_rooms_example negative_rooms_base negative_rooms_ingest).
Defined.

Lemma coercion_ingest :
  ingest (RT := Fragment.runtime) coercion_example = Ok coercion_base.
Proof. vm_compute. reflexivity. Qed.

(** C7.  Decoding coerces first and fills afterwards.  In the base table of
    any raw frame each of the three counts is, row by row, [fillna(0)] of
    [to_numeric] of what [parse_properties] read for it; so a value that
    fails the coercion gives the same cell as a value that is absent, the
    number 0, and whether a row survives depends on its price alone.  On the
    frame whose one row has the price 1500 and the properties text of the
    example, the base table has that one row, with rooms 3, bathrooms 0 and
    garage_spaces 0. *)
Theorem coercion_failure_counts_as_absent :
  (∀ (RT : Runtime) raw base, ingest raw = Ok base →
     cell_at "rooms" <$> records base
     = (λ ir, fillna zero (to_numeric (source_property raw prop_rooms ir.2)))
       <$> survivors raw
     ∧ cell_at "bathrooms" <$> records base
       = (λ ir, fillna zero (to_numeric (source_property raw prop_bathrooms ir.2)))
         <$> survivors raw
     ∧ cell_at "garage_spaces" <$> records base
       = (λ ir, fillna zero (to_numeric (source_property raw prop_garage_spaces ir.2)))
         <$> survivors raw)
  ∧ (∀ (RT : Runtime) v, to_numeric v = CNull →
       fillna zero (to_numeric v) = zero
       ∧ fillna zero (to_numeric v) = fillna zero (to_numeric CNull))
  ∧ (ingest (RT := Fragment.runtime) coercion_example = Ok coercion_base
     ∧ length (records coercion_base) = 1%nat
     ∧ cell_at "rooms" <$> records coercion_base = [CNum (num_of_Z 3)]
     ∧ cell_at "bathrooms" <$> records coercion_base = [CNum (num_of_Z 0)]
     ∧ cell_at "garage_spaces" <$> records coercion_base = [CNum (num_of_Z 0)]).
Proof.
  split; [|split].
  - intros RT raw base Hbase.
    exact (property_count_columns raw base Hbase).
  - intros RT v ->. done.
  - split; [exact coercion_ingest|]. repeat split; vm_compute; reflexivity.
Qed.

Lemma coercion_failure_counts_as_absent_witness :
  ingest (RT := Fragment.runtime) coercion_example = Ok coercion_base
  ∧ cell_at "bathrooms" <$> records coercion_base
    = (λ ir, fillna zero
               (to_numeric (RT := Fragment.runtime)
                  (source_property (RT := Fragment.runtime) coercion_example
                     prop_bathrooms ir.2)))
      <$> survivors (RT := Fragment.runtime) coercion_example.
Proof.
  split; [exact coercion_ingest|].
  exact (proj1 (proj2 (proj1 coercion_failure_counts_as_absent Fragment.runtime
                         coercion_example coercion_base coercion_ingest))).
Defined.

(** *** Dates *)

Lemma dated_ingest : ingest (RT := Fragment.runtime) dated_example = Ok dated_base.
Proof. vm_compute. reflexivity. Qed.

Lemma date_range_criterion_witness :
  ingest (RT := Fragment.runtime) dated_example = Ok dated_base
  ∧ has_column "date" dated_example = true
  ∧ filter_date (RT := Fragment.runtime) (Some "1970-01-01") (Some "1970-01-03") dated_base
    = Ok (Frame (columns dated_base)
            (filter (λ r, in_date_range 0 172800000000000 (cell_at "date" r) = true)
                    (records dated_base)))
  ∧ filter_date (RT := Fragment.runtime) None (Some "1970-01-03") dated_base
    = Ok dated_base.
Proof.
  split; [exact dated_ingest|]. split; [reflexivity|].
  destruct (date_range_criterion (RT := Fragment.runtime) dated_example dated_base
              (Some "1970-01-01") (Some "1970-01-03") dated_ingest eq_refl)
    as [_ Hactive].
  destruct (date_range_criterion (RT := Fragment.runtime) dated_example dated_base
              None (Some "1970-01-03") dated_ingest eq_refl) as [Hnoop _].
  split; [|apply Hnoop; by left].
  apply (Hactive "1970-01-01" "1970-01-03"); try reflexivity.
  apply Exists_cons_hd. vm_compute. discriminate.
Defined.

(** Between 1970-01-01 and 1970-01-03 only the first listing is kept; the
    undated one goes with the one posted later. *)
Example dated_example_view :
  identifiers <$> filter_date (RT := Fragment.runtime)
                    (Some "1970-01-01") (Some "1970-01-03") dated_base
  = Ok [CNum (num_of_Z 1)].
Proof. vm_compute. reflexivity. Qed.

(** C6, where the code departs.  The base table of [price_example] has
    rows, no [date] column and so no row with a date: the claim makes the
    date criterion a no-op there.  With one bound only the code agrees.
    With both bounds it evaluates [df_filtrado['date']] before anything
    else and raises KeyError, and so does the callback; the same holds on
    every table without a [date] column, whatever the two dates. *)
Theorem date_criterion_raises_without_date_column :
  ingest (RT := Fragment.runtime) price_example = Ok price_example_base
  ∧ has_column "date" price_example_base = false
  ∧ length (records price_example_base) = 2%nat
  ∧ Forall (λ r, cell_at "date" r = CNull) (records price_example_base)
  ∧ filter_date (RT := Fragment.runtime) None (Some "2024-12-31") price_example_base
    = Ok price_example_base
  ∧ filter_date (RT := Fragment.runtime) (Some "2024-01-01") None price_example_base
    = Ok price_example_base
  ∧ filter_date (RT := Fragment.runtime) (Some "2024-01-01") (Some "2024-12-31")
      price_example_base
    = Raise (KeyError "date")
  ∧ (atualizar_dashboard (RT := Fragment.runtime) (only_dates "2024-01-01" "2024-12-31")
       price_example_base).1
    = Raise (KeyError "date")
  ∧ (∀ (RT : Runtime) s e df,
       s ≠ "" → e ≠ "" → has_column "date" df = false →
       filter_date (Some s) (Some e) df = Raise (KeyError "date")).
Proof.
  split; [exact price_example_ingest|].
  split; [reflexivity|]. split; [reflexivity|].
  split; [repeat constructor|].
  split; [reflexivity|]. split; [reflexivity|].
  split; [vm_compute; reflexivity|]. split; [vm_compute; reflexivity|].
  intros RT s e df Hs He Hcol. by apply filter_date_missing.
Qed.

(** *** Criteria *)

Lemma no_criteria_is_identity_witness :
  unset no_criteria
  ∧ filtrar (RT := Fragment.runtime) no_criteria price_example_base = Ok price_example_base
  ∧ (atualizar_dashboard (RT := Fragment.runtime) no_criteria price_example_base).1
    = agregar price_example_base
  ∧ (atualizar_dashboard (RT := Fragment.runtime) no_criteria price_example_base).2
    = price_example_base
  ∧ (∀ c', (atualizar_dashboard (RT := Fragment.runtime) c' price_example_base).2
           = price_example_base).
Proof.
  assert (unset no_criteria) as H by (repeat split).
  split; [exact H|].
  exact (no_criteria_is_identity (RT := Fragment.runtime) no_criteria price_example_base H).
Defined.

(** No listing of [price_example] costs between 20000 and 30000. *)
Lemma no_listing_that_expensive :
  filtrar (RT := Fragment.runtime) (only_preco 20000 30000) price_example_base
  = Ok (Frame (columns price_example_base) []).
Proof. vm_compute. reflexivity. Qed.

Lemma empty_view_gives_markers_witness :
  filtrar (RT := Fragment.runtime) (only_preco 20000 30000) price_example_base
  = Ok (Frame (columns price_example_base) [])
  ∧ records (Frame (columns price_example_base) []) = []
  ∧ ∃ d, atualizar_dashboard (RT := Fragment.runtime) (only_preco 20000 30000)
           price_example_base
         = (Ok d, price_example_base)
      ∧ dados_tabela d = []
      ∧ fig_data (grafico_precos d) = NoData
      ∧ fig_title (grafico_precos d) = Some "Sem dados para exibir"
      ∧ total_imoveis d = 0%nat.
Proof.
  split; [exact no_listing_that_expensive|]. split; [reflexivity|].
  destruct (empty_view_gives_markers (RT := Fragment.runtime) _ _ _
              no_listing_that_expensive eq_refl)
    as (d & _ & Hd & Hrows & Hprecos & _ & _ & Htotal & _).
  exists d. rewrite Hprecos. repeat split; assumption.
Defined.

(** C5, where the code raises.  The base table of [price_example] has no
    [professionalad] and no [date] column (the raw frame had none, and the
    pre-processing adds none).  Asking for professional listings, or for a
    date range, makes the callback raise KeyError, where the search over
    [subject] and [title] first looks whether the columns exist. *)
Theorem missing_column_raises :
  ingest (RT := Fragment.runtime) price_example = Ok price_example_base
  ∧ has_column "professionalad" price_example_base = false
  ∧ has_column "date" price_example_base = false
  ∧ (atualizar_dashboard (RT := Fragment.runtime)
       (only_profissional true) price_example_base).1
    = Raise (KeyError "professionalad")
  ∧ (atualizar_dashboard (RT := Fragment.runtime)
       (only_profissional false) price_example_base).1
    = Raise (KeyError "professionalad")
  ∧ (atualizar_dashboard (RT := Fragment.runtime)
       (only_dates "2024-01-01" "2024-12-31") price_example_base).1
    = Raise (KeyError "date")
  ∧ raises (atualizar_dashboard (RT := Fragment.runtime)
              (only_busca "apartamento") price_example_base).1 = false.
Proof.
  split; [exact price_example_ingest|]. repeat split; vm_compute; reflexivity.
Qed.

(** *** Search terms *)

(** On a term without special characters the regular expression search of
    the fragment is the plain search. *)
Lemma literal_term_is_plain_search term s :
  forallb (λ a, negb (Fragment.is_meta a)) (list_ascii_of_string term) = true →
  Fragment.re_search_ignorecase term s = Some (occurs_ignorecase term s).
Proof.
  intros Hlit. unfold Fragment.re_search_ignorecase.
  assert (forallb (λ a, negb (Fragment.is_meta a) || Ascii.eqb a ".")
                  (list_ascii_of_string term) = true) as ->.
  { revert Hlit. induction term as [|p term IH]; [done|]. cbn [list_ascii_of_string forallb].
    intros [-> ?]%andb_true_iff. cbn. auto. }
  f_equal.
  assert (∀ t, Fragment.match_here term t = prefix_ignorecase term t) as Hhere.
  { revert Hlit. induction term as [|p term IH]; intros Hlit t; [done|].
    cbn [list_ascii_of_string forallb] in Hlit.
    apply andb_true_iff in Hlit as [Hp Hlit]. destruct t as [|a t]; [done|].
    cbn [Fragment.match_here prefix_ignorecase]. rewrite IH by done. f_equal.
    unfold Fragment.char_matches. destruct (Ascii.eqb_spec p "."); [by subst|done]. }
  induction s as [|a s IH]; cbn [Fragment.search occurs_ignorecase]; by rewrite Hhere, ?IH.
Qed.

(** So for a term without special characters the search keeps the rows in
    which the term occurs, letter case ignored, in the text form of one of
    the text columns that are present. *)
Lemma literal_term_search term df :
  term ≠ "" → text_columns df ≠ [] →
  forallb (λ a, negb (Fragment.is_meta a)) (list_ascii_of_string term) = true →
  filter_busca (RT := Fragment.runtime) (Some term) df
  = Ok (Frame (columns df)
              (filter (λ r, existsb (λ c, occurs_ignorecase term
                                            (astype_str (RT := Fragment.runtime) (cell_at c r)))
                                    (text_columns df) = true)
                      (records df))).
Proof.
  intros Hterm Hcols Hlit. apply (filter_busca_rows (RT := Fragment.runtime)); [done..|].
  intros s. by apply literal_term_is_plain_search.
Qed.

Lemma search_ingest : ingest (RT := Fragment.runtime) search_example = Ok search_base.
Proof. vm_compute. reflexivity. Qed.

(** C4, where the code departs.  Searching for "a.c" keeps the listing whose
    subject is "abc", in which the text a.c does not occur: the term is read
    as a regular expression, whose dot stands for any character.  (It also
    keeps "A.C", where the text does occur, and drops "xyz".) *)
Theorem search_term_read_as_pattern :
  ingest (RT := Fragment.runtime) search_example = Ok search_base
  ∧ (λ view, cell_at "subject" <$> records view)
      <$> filter_busca (RT := Fragment.runtime) (Some "a.c") search_base
    = Ok [CStr "abc"; CStr "A.C"]
  ∧ occurs_ignorecase "a.c" "abc" = false
  ∧ occurs_ignorecase "a.c" "A.C" = true.
Proof.
  split; [exact search_ingest|]. repeat split; vm_compute; reflexivity.
Qed.

(** ** Thumbnails and the image popup *)

Lemma substring_all (s : string) : substring 0 (String.length s) s = s.
Proof. induction s as [|a s IH]; [done|]. cbn. by rewrite IH. Qed.

Lemma substring_prefix (s t : string) : substring 0 (String.length s) (s ++ t) = s.
Proof.
  induction s as [|a s IH]; [by destruct t|]. simpl. by rewrite IH.
Qed.

Lemma find_in_quote (url rest : string) :
  quote_free url = true →
  find_in dquote (url ++ String (ascii_of_nat 34) rest) = Some (String.length url).
Proof.
  induction url as [|a url IH]; intros Hfree.
  - cbn. by destruct rest.
  - cbn [quote_free] in Hfree. apply andb_true_iff in Hfree as [Ha Hfree].
    apply negb_true_iff, Ascii.eqb_neq in Ha.
    change (String a url ++ String (ascii_of_nat 34) rest)
      with (String a (url ++ String (ascii_of_nat 34) rest)).
    cbn [find_in dquote chr String.prefix].
    destruct (ascii_dec (ascii_of_nat 34) a) as [Heq|_]; [by subst a|].
    rewrite IH by done. done.
Qed.

Lemma create_thumbnail_html_markup url :
  strip url ≠ "" → create_thumbnail_html (CStr url) = Ok (thumbnail_markup url).
Proof.
  intros Hurl. unfold create_thumbnail_html.
  by rewrite (proj2 (String.eqb_neq (strip url) "")).
Qed.

(** What the popup callback reads back out of the fragment. *)
Lemma src_of_markup url :
  quote_free url = true →
  let cell_value := thumbnail_markup url in
  let start := py_find ("src=" ++ dquote) cell_value 0 in
  start = 5
  ∧ py_find dquote cell_value (Z.to_nat start + String.length ("src=" ++ dquote))
    = Z.of_nat (10 + String.length url)
  ∧ py_slice cell_value (Z.to_nat start + String.length ("src=" ++ dquote))
             (Z.of_nat (10 + String.length url))
    = url.
Proof.
  intros Hfree. cbv zeta.
  assert (py_find ("src=" ++ dquote) (thumbnail_markup url) 0 = 5) as ->.
  { unfold py_find, string_drop. rewrite Nat.sub_0_r, substring_all.
    by destruct url. }
  split; [done|].
  set (tail := " class=" ++ dquote ++ "thumb-img" ++ dquote ++ " />").
  assert (thumbnail_markup url
          = "<img src=" ++ dquote ++ (url ++ String (ascii_of_nat 34) tail)) as Hm by done.
  assert (String.length (thumbnail_markup url)
          = (10 + String.length (url ++ String (ascii_of_nat 34) tail))%nat) as Hlen
    by (by rewrite Hm).
  assert (string_drop 10 (thumbnail_markup url) = url ++ String (ascii_of_nat 34) tail)
    as Hdrop.
  { unfold string_drop. rewrite Hlen, Hm.
    replace (10 + String.length (url ++ String (ascii_of_nat 34) tail) - 10)%nat
      with (String.length (url ++ String (ascii_of_nat 34) tail)) by lia.
    cbn [append dquote chr substring]. apply substring_all. }
  change (Z.to_nat 5 + String.length ("src=" ++ dquote))%nat with 10%nat.
  split.
  - unfold py_find. rewrite Hdrop, Hlen.
    replace (10 + String.length (url ++ String (ascii_of_nat 34) tail) <? 10)%nat
      with false by (symmetry; apply Nat.ltb_ge; lia).
    by rewrite find_in_quote.
  - unfold py_slice. rewrite Hlen.
    replace (Z.of_nat (10 + String.length url) <? 0)%Z with false
      by (symmetry; apply Z.ltb_ge; lia).
    assert (String.length url ≤ String.length (url ++ String (ascii_of_nat 34) tail))%nat.
    { clear. induction url; simpl; lia. }
    rewrite Z.min_l by lia.
    replace (Z.to_nat (Z.of_nat (10 + String.length url)) - 10)%nat
      with (String.length url) by lia.
    rewrite Hm. cbn [append dquote chr substring]. apply substring_prefix.
Qed.

(** C10.  A URL that is not blank and holds no double quote goes through the
    formatter and comes back whole from the popup callback: a click on the
    thumbnail cell of a row that carries the formatter's output opens the
    popup on exactly that URL.  For a missing or blank URL the formatter
    gives the empty text, and a click on such a cell opens nothing: the
    popup stays as it was, with no image. *)
Theorem thumbnail_round_trip :
  (∀ url markup prop_id others table i row fechar is_open,
     strip url ≠ "" → quote_free url = true →
     create_thumbnail_html (CStr url) = Ok markup →
     before_dot prop_id = "tabela-dados" →
     table !! i = Some row →
     row !! "thumbnail_link" = Some (CStr markup) →
     exibir_imagem (prop_id :: others) (Some (Active i "thumbnail_link")) table fechar is_open
     = Ok (true, url))
  ∧ create_thumbnail_html CNull = Ok ""
  ∧ (∀ url, strip url = "" → create_thumbnail_html (CStr url) = Ok "")
  ∧ (∀ prop_id others table i row fechar is_open,
       before_dot prop_id = "tabela-dados" →
       table !! i = Some row →
       row !! "thumbnail_link" = Some (CStr "") →
       exibir_imagem (prop_id :: others) (Some (Active i "thumbnail_link")) table fechar
                     is_open
       = Ok (is_open, "")).
Proof.
  split; [|split; [done|split]].
  - intros url markup prop_id others table i row fechar is_open Hblank Hfree Hmarkup
      Hprop Hrow Hcell.
    rewrite create_thumbnail_html_markup in Hmarkup by done. injection Hmarkup as <-.
    destruct (src_of_markup url Hfree) as (Hstart & Hend & Hslice).
    unfold exibir_imagem. rewrite Hprop. cbn [String.eqb Ascii.eqb Bool.eqb ac_column_id ac_row].
    rewrite Hrow, Hcell. cbn [default from_option]. unfold id.
    assert (truthy (CStr (thumbnail_markup url)) = true) as -> by done.
    rewrite Hstart in *. change (5 =? -1)%Z with false. cbv iota.
    by rewrite Hend, Hslice.
  - intros url Hblank. unfold create_thumbnail_html. by rewrite Hblank.
  - intros prop_id others table i row fechar is_open Hprop Hrow Hcell.
    unfold exibir_imagem. rewrite Hprop. cbn [String.eqb Ascii.eqb Bool.eqb ac_column_id ac_row].
    by rewrite Hrow, Hcell.
Qed.

(** A click on the thumbnail of the one listing of a table. *)
Lemma thumbnail_round_trip_witness :
  strip "http://img.example/1.jpg" ≠ ""
  ∧ quote_free "http://img.example/1.jpg" = true
  ∧ create_thumbnail_html (CStr "http://img.example/1.jpg")
    = Ok (thumbnail_markup "http://img.example/1.jpg")
  ∧ exibir_imagem ["tabela-dados.active_cell"] (Some (Active 0 "thumbnail_link"))
      [ {["thumbnail_link" := CStr (thumbnail_markup "http://img.example/1.jpg")]} ]
      0 false
    = Ok (true, "http://img.example/1.jpg").
Proof.
  assert (strip "http://img.example/1.jpg" ≠ "") as Hblank by (vm_compute; discriminate).
  split; [exact Hblank|]. split; [reflexivity|]. split; [reflexivity|].
  refine (proj1 thumbnail_round_trip "http://img.example/1.jpg"
            (thumbnail_markup "http://img.example/1.jpg") "tabela-dados.active_cell" []
            [ {["thumbnail_link" := CStr (thumbnail_markup "http://img.example/1.jpg")]} ]
            0%nat
            {["thumbnail_link" := CStr (thumbnail_markup "http://img.example/1.jpg")]}
            0 false Hblank eq_refl eq_refl eq_refl eq_refl _).
  apply lookup_singleton_eq.
Defined.

(** * Further properties *)

(** ** Loading the module *)

Ltac not_listed := rewrite !not_elem_of_cons; repeat split; try done; apply not_elem_of_nil.

Lemma traverse_raise {A B} (f : A → outcome B) (l : list A) (e : exn) :
  (∀ a, a ∈ l → raises (f a) = true → f a = Raise e) →
  (∃ a, a ∈ l ∧ raises (f a) = true) →
  traverse f l = Raise e.
Proof.
  induction l as [|a l IH]; intros Hall (a0 & Hin & Ha0).
  - by apply elem_of_nil in Hin.
  - cbn [traverse]. destruct (f a) as [b|e'] eqn:Hfa.
    + cbn [mbind outcome_bind]. rewrite IH; [done| |].
      * intros a' Ha'. apply Hall. by right.
      * apply elem_of_cons in Hin as [->|Hin]; [by rewrite Hfa in Ha0|eauto].
    + assert (a ∈ a :: l) as Ha by left.
      specialize (Hall a Ha). rewrite Hfa in Hall. by rewrite Hall.
Qed.

Section LoadingFacts.
Context `{RT : Runtime}.

(** X1.  A file without a [price_value] column stops the module: the
    conversion of line 66 is skipped, and the fill of line 133 asks for the
    column without looking, which raises KeyError. *)
Theorem ingest_without_price_raises raw :
  has_column "price_value" raw = false →
  ingest raw = Raise (KeyError "price_value").
Proof. intros Hprice. unfold ingest. by rewrite normalize_missing_price. Qed.

Lemma survivor_in_raw raw i r : (i, r) ∈ survivors raw → r ∈ records raw ∧ survives r = true.
Proof.
  unfold survivors. intros [Hr Hin]%list_elem_of_filter. split; [|done].
  by apply elem_of_zip_r in Hin.
Qed.

Lemma raw_in_survivors raw r :
  r ∈ records raw → survives r = true → ∃ i, (i, r) ∈ survivors raw.
Proof.
  intros Hr Hs. apply list_elem_of_lookup in Hr as [i Hi]. exists i.
  unfold survivors. apply list_elem_of_filter. split; [done|].
  apply list_elem_of_lookup. exists i. apply lookup_zip_with_Some.
  exists i, r. split; [done|]. split; [|done].
  apply lookup_seq. split; [done|]. by apply lookup_lt_Some in Hi.
Qed.

(** X2.  On a file whose headers stay pairwise distinct when lower-cased
    (so that line 60 only renames them and every [df[c]] is a column), with
    a price column, the pre-processing runs to its end whenever the
    thumbnail of every listing that passes the range filter is a text or
    missing (and always when the file has no thumbnail column, every
    thumbnail being missing then).  The base table then has one row for each
    listing that passes the filter. *)
Theorem ingest_succeeds_on_text_thumbnails raw :
  NoDup (columns raw) →
  has_column "price_value" raw = true →
  (∀ r, r ∈ records raw → survives r = true →
        missing_or_text (cell_at "thumbnail" r) = true) →
  ∃ base, ingest raw = Ok base
          ∧ length (records base) = length (survivors raw).
Proof.
  intros _ Hprice Hthumb.
  assert (∃ base, ingest raw = Ok base) as [base Hbase];
    [|exists base; split; [done|by apply length_survivors]].
  unfold ingest.
  destruct (range_filter_normalize raw Hprice) as (view & Hview & Hrows & _).
  destruct (normalize raw) as [norm|]; [|done]. cbn [mbind outcome_bind] in *.
  rewrite Hview. cbn [mbind outcome_bind]. unfold add_thumbnails.
  destruct (has_column "thumbnail" view); [|by eexists].
  destruct (traverse_ok (λ r, create_thumbnail_html (cell_at "thumbnail" r)) (records view))
    as [links ->]; [|by eexists].
  intros r. rewrite Hrows. intros ([i r0] & -> & Hr0)%list_elem_of_fmap. cbn.
  rewrite normalize_row_thumbnail.
  apply survivor_in_raw in Hr0 as [Hin Hs]. specialize (Hthumb r0 Hin Hs).
  destruct (cell_at "thumbnail" r0) as [| | |url| |]; try done; [by eexists|].
  cbn. destruct (String.eqb (strip url) ""); by eexists.
Qed.

(** X3.  With a price column and a thumbnail column, one listing that passes
    the range filter and whose thumbnail is a number or a boolean stops the
    module: [create_thumbnail_html] calls [strip] on it, which raises
    AttributeError. *)
Theorem ingest_number_thumbnail_raises raw r :
  has_column "price_value" raw = true →
  has_column "thumbnail" raw = true →
  r ∈ records raw → survives r = true →
  number_or_boolean (cell_at "thumbnail" r) = true →
  ingest raw = Raise AttributeError.
Proof.
  intros Hprice Hcol Hr Hs Hnum. unfold ingest.
  destruct (range_filter_normalize raw Hprice) as (view & Hview & Hrows & Hcols).
  destruct (normalize raw) as [norm|]; [|done]. cbn [mbind outcome_bind] in *.
  rewrite Hview. cbn [mbind outcome_bind]. unfold add_thumbnails.
  rewrite Hcols, Hcol, orb_true_r.
  rewrite (traverse_raise _ _ AttributeError); [done| |].
  - intros r' _. by destruct (cell_at "thumbnail" r') as [| | |url| |]; cbn;
      try destruct (String.eqb (strip url) "").
  - destruct (raw_in_survivors raw r Hr Hs) as [i Hi].
    exists (normalize_row raw i r). split.
    + rewrite Hrows. apply list_elem_of_fmap. by exists (i, r).
    + rewrite normalize_row_thumbnail. by destruct (cell_at "thumbnail" r).
Qed.

End LoadingFacts.

(** ** Columns of the base table *)

Section ColumnFacts.
Context `{RT : Runtime}.

(** The [locationdetails] text the decoding of a row starts from. *)
Lemma location_before_decoding raw i r :
  cell_at "locationdetails"
    ((if has_column "listid" raw
      then row_set "listid" (λ r, CStr (astype_str (cell_at "listid" r))) else id)
       ((if has_column "price_value" raw
         then row_set "price_value" (λ r, to_numeric (cell_at "price_value" r)) else id)
          ((if has_column "date" raw
            then row_set "date" (λ r, time_cell (to_datetime_s (cell_at "date" r)))
            else id)
             (row_set "id" (λ _, CNum (num_of_Z (Z.of_nat i + 1))) r))))
  = cell_at "locationdetails" r.
Proof.
  rewrite !cell_at_if_row_set by done.
  by apply cell_at_row_set_ne.
Qed.

Lemma normalize_row_municipality raw i r :
  cell_at "municipality" (normalize_row raw i r)
  = fillna (CStr "Desconhecido") (source_location raw loc_municipality r).
Proof.
  unfold normalize_row, compose, source_location.
  rewrite !cell_at_row_set_ne by done.
  rewrite cell_at_row_set_eq. f_equal.
  rewrite !cell_at_row_set_ne by done.
  rewrite cell_at_properties_row by not_listed.
  unfold location_row, compose.
  destruct (has_column "locationdetails" raw).
  - rewrite !cell_at_row_set_ne by done. rewrite cell_at_row_set_eq.
    rewrite cell_at_row_set_eq.
    cbn [astype_str]. by rewrite location_before_decoding.
  - rewrite !cell_at_row_set_ne by done. by rewrite cell_at_row_set_eq.
Qed.

Lemma normalize_row_ddd raw i r :
  cell_at "ddd" (normalize_row raw i r)
  = fillna (CStr "Desconhecido") (source_location raw loc_ddd r).
Proof.
  unfold normalize_row, compose, source_location.
  rewrite !cell_at_row_set_ne by done.
  rewrite cell_at_row_set_eq. f_equal.
  rewrite !cell_at_row_set_ne by done.
  rewrite cell_at_properties_row by not_listed.
  unfold location_row, compose.
  destruct (has_column "locationdetails" raw).
  - rewrite !cell_at_row_set_ne by done. rewrite cell_at_row_set_eq.
    rewrite !cell_at_row_set_ne by done. rewrite cell_at_row_set_eq.
    cbn [astype_str]. by rewrite location_before_decoding.
  - rewrite !cell_at_row_set_ne by done. by rewrite cell_at_row_set_eq.
Qed.

Lemma normalize_row_neighbourhood raw i r :
  cell_at "neighbourhood" (normalize_row raw i r)
  = fillna (CStr "Desconhecido") (source_location raw loc_neighbourhood r).
Proof.
  unfold normalize_row, compose, source_location.
  rewrite !cell_at_row_set_ne by done.
  rewrite cell_at_row_set_eq. f_equal.
  rewrite !cell_at_row_set_ne by done.
  rewrite cell_at_properties_row by not_listed.
  unfold location_row, compose.
  destruct (has_column "locationdetails" raw).
  - rewrite !cell_at_row_set_ne by done. rewrite cell_at_row_set_eq.
    rewrite !cell_at_row_set_ne by done. rewrite cell_at_row_set_eq.
    cbn [astype_str]. by rewrite location_before_decoding.
  - rewrite !cell_at_row_set_ne by done. by rewrite cell_at_row_set_eq.
Qed.

Lemma normalize_row_uf raw i r :
  cell_at "uf" (normalize_row raw i r)
  = fillna (CStr "Desconhecido") (source_location raw loc_uf r).
Proof.
  unfold normalize_row, compose, source_location.
  rewrite !cell_at_row_set_ne by done.
  rewrite cell_at_row_set_eq. f_equal.
  rewrite !cell_at_row_set_ne by done.
  rewrite cell_at_properties_row by not_listed.
  unfold location_row, compose.
  destruct (has_column "locationdetails" raw).
  - rewrite cell_at_row_set_eq.
    rewrite !cell_at_row_set_ne by done. rewrite cell_at_row_set_eq.
    cbn [astype_str]. by rewrite location_before_decoding.
  - by rewrite cell_at_row_set_eq.
Qed.

Lemma fillna_present v c : isna v = false → isna (fillna v c) = false.
Proof. intros Hv. unfold fillna. by destruct (isna c) eqn:Hc. Qed.

Lemma cell_at_present k (r : gmap string cell) :
  isna (cell_at k r) = false → ∃ v, r !! k = Some v ∧ isna v = false.
Proof. unfold cell_at. destruct (r !! k) as [v|]; [eauto|done]. Qed.

(** X4.  In the base table the four location columns are never missing.
    Row by row each is what [parse_location] read for it in the raw row, and
    the text Desconhecido when it read nothing: the key is absent or null,
    the text is not a JSON object, or the file has no [locationdetails]
    column at all. *)
Theorem location_fields_of_base_table raw base :
  ingest raw = Ok base →
  (∀ r k, r ∈ records base → k ∈ ["municipality"; "ddd"; "neighbourhood"; "uf"] →
     ∃ v, r !! k = Some v ∧ isna v = false)
  ∧ cell_at "municipality" <$> records base
    = (λ ir, fillna (CStr "Desconhecido") (source_location raw loc_municipality ir.2))
      <$> survivors raw
  ∧ cell_at "ddd" <$> records base
    = (λ ir, fillna (CStr "Desconhecido") (source_location raw loc_ddd ir.2))
      <$> survivors raw
  ∧ cell_at "neighbourhood" <$> records base
    = (λ ir, fillna (CStr "Desconhecido") (source_location raw loc_neighbourhood ir.2))
      <$> survivors raw
  ∧ cell_at "uf" <$> records base
    = (λ ir, fillna (CStr "Desconhecido") (source_location raw loc_uf ir.2))
      <$> survivors raw
  ∧ (∀ r field, field ∈ [loc_municipality; loc_ddd; loc_neighbourhood; loc_uf] →
       has_column "locationdetails" raw = false
       ∨ json_loads (astype_str (cell_at "locationdetails" r)) = None →
       fillna (CStr "Desconhecido") (source_location raw field r) = CStr "Desconhecido").
Proof.
  intros Hbase.
  assert (Hm : cell_at "municipality" <$> records base
    = (λ ir, fillna (CStr "Desconhecido") (source_location raw loc_municipality ir.2))
      <$> survivors raw).
  { rewrite (base_column raw base) by done. apply list_fmap_ext. intros _ [i r] _.
    apply normalize_row_municipality. }
  assert (Hd : cell_at "ddd" <$> records base
    = (λ ir, fillna (CStr "Desconhecido") (source_location raw loc_ddd ir.2))
      <$> survivors raw).
  { rewrite (base_column raw base) by done. apply list_fmap_ext. intros _ [i r] _.
    apply normalize_row_ddd. }
  assert (Hn : cell_at "neighbourhood" <$> records base
    = (λ ir, fillna (CStr "Desconhecido") (source_location raw loc_neighbourhood ir.2))
      <$> survivors raw).
  { rewrite (base_column raw base) by done. apply list_fmap_ext. intros _ [i r] _.
    apply normalize_row_neighbourhood. }
  assert (Hu : cell_at "uf" <$> records base
    = (λ ir, fillna (CStr "Desconhecido") (source_location raw loc_uf ir.2))
      <$> survivors raw).
  { rewrite (base_column raw base) by done. apply list_fmap_ext. intros _ [i r] _.
    apply normalize_row_uf. }
  split; [|repeat split; try done].
  - intros r k Hr Hk. apply cell_at_present.
    rewrite !elem_of_cons in Hk.
    destruct Hk as [->|[->|[->|[->|Hk]]]]; [| | | |by apply elem_of_nil in Hk].
    + apply (elem_of_column (cell_at "municipality")) in Hr. rewrite Hm in Hr.
      apply list_elem_of_fmap in Hr as (ir & -> & _). by apply fillna_present.
    + apply (elem_of_column (cell_at "ddd")) in Hr. rewrite Hd in Hr.
      apply list_elem_of_fmap in Hr as (ir & -> & _). by apply fillna_present.
    + apply (elem_of_column (cell_at "neighbourhood")) in Hr. rewrite Hn in Hr.
      apply list_elem_of_fmap in Hr as (ir & -> & _). by apply fillna_present.
    + apply (elem_of_column (cell_at "uf")) in Hr. rewrite Hu in Hr.
      apply list_elem_of_fmap in Hr as (ir & -> & _). by apply fillna_present.
  - intros r field Hfield Hnone. unfold source_location.
    destruct Hnone as [-> | Hnone]; [done|].
    destruct (has_column "locationdetails" raw); [|done].
    unfold parse_location. rewrite Hnone.
    rewrite !elem_of_cons in Hfield.
    destruct Hfield as [->|[->|[->|[->|Hfield]]]]; [done..|by apply elem_of_nil in Hfield].
Qed.

Lemma normalize_row_category raw i r :
  cell_at "category" (normalize_row raw i r) = source_property raw prop_category r.
Proof.
  unfold normalize_row, compose, source_property.
  rewrite !cell_at_row_set_ne by done.
  unfold properties_row, compose.
  destruct (has_column "properties" raw).
  - rewrite !cell_at_row_set_ne by done. rewrite cell_at_row_set_eq.
    rewrite cell_at_row_set_eq.
    cbn [astype_str]. by rewrite properties_before_decoding.
  - rewrite !cell_at_row_set_ne by done. by rewrite cell_at_row_set_eq.
Qed.

Lemma normalize_row_real_estate_type raw i r :
  cell_at "real_estate_type" (normalize_row raw i r)
  = source_property raw prop_real_estate_type r.
Proof.
  unfold normalize_row, compose, source_property.
  rewrite !cell_at_row_set_ne by done.
  unfold properties_row, compose.
  destruct (has_column "properties" raw).
  - rewrite !cell_at_row_set_ne by done. rewrite cell_at_row_set_eq.
    rewrite !cell_at_row_set_ne by done. rewrite cell_at_row_set_eq.
    cbn [astype_str]. by rewrite properties_before_decoding.
  - rewrite !cell_at_row_set_ne by done. by rewrite cell_at_row_set_eq.
Qed.

(** X5.  Nothing fills [category] and [real_estate_type]: in the base table
    each is, row by row, what [parse_properties] read for it in the raw row,
    and it is missing when the properties give none (or there is no
    [properties] column), where the counts get 0 and the locations a text. *)
Theorem category_fields_of_base_table raw base :
  ingest raw = Ok base →
  cell_at "category" <$> records base
  = (λ ir, source_property raw prop_category ir.2) <$> survivors raw
  ∧ cell_at "real_estate_type" <$> records base
    = (λ ir, source_property raw prop_real_estate_type ir.2) <$> survivors raw
  ∧ (has_column "properties" raw = false →
     ∀ r, r ∈ records base →
          cell_at "category" r = CNull ∧ cell_at "real_estate_type" r = CNull).
Proof.
  intros Hbase.
  assert (Hc : cell_at "category" <$> records base
    = (λ ir, source_property raw prop_category ir.2) <$> survivors raw).
  { rewrite (base_column raw base) by done. apply list_fmap_ext. intros _ [i r] _.
    apply normalize_row_category. }
  assert (Ht : cell_at "real_estate_type" <$> records base
    = (λ ir, source_property raw prop_real_estate_type ir.2) <$> survivors raw).
  { rewrite (base_column raw base) by done. apply list_fmap_ext. intros _ [i r] _.
    apply normalize_row_real_estate_type. }
  split; [done|]. split; [done|].
  intros Hprops r Hr. split.
  - apply (elem_of_column (cell_at "category")) in Hr. rewrite Hc in Hr.
    apply list_elem_of_fmap in Hr as (ir & -> & _).
    unfold source_property. by rewrite Hprops.
  - apply (elem_of_column (cell_at "real_estate_type")) in Hr. rewrite Ht in Hr.
    apply list_elem_of_fmap in Hr as (ir & -> & _).
    unfold source_property. by rewrite Hprops.
Qed.

Lemma normalize_row_listid raw i r :
  has_column "listid" raw = true →
  cell_at "listid" (normalize_row raw i r) = CStr (astype_str (cell_at "listid" r)).
Proof.
  intros Hlistid. unfold normalize_row, compose.
  rewrite !cell_at_row_set_ne by done.
  rewrite cell_at_properties_row, cell_at_location_row by not_listed.
  rewrite Hlistid, cell_at_row_set_eq. do 2 f_equal.
  rewrite !cell_at_if_row_set by done.
  by apply cell_at_row_set_ne.
Qed.

(** X6.  When the file has a [listid] column, the base table holds it as
    text: row by row the [str] of the raw value.  A listing without one gets
    the text nan, so no [listid] of the base table is missing. *)
Theorem listid_of_base_table raw base :
  ingest raw = Ok base → has_column "listid" raw = true →
  cell_at "listid" <$> records base
  = (λ ir, CStr (astype_str (cell_at "listid" ir.2))) <$> survivors raw
  ∧ (∀ r, r ∈ records base → ∃ s, r !! "listid" = Some (CStr s))
  ∧ (∀ r : gmap string cell,
       cell_at "listid" r = CNull → CStr (astype_str (cell_at "listid" r)) = CStr "nan").
Proof.
  intros Hbase Hlistid.
  assert (Hl : cell_at "listid" <$> records base
    = (λ ir, CStr (astype_str (cell_at "listid" ir.2))) <$> survivors raw).
  { rewrite (base_column raw base) by done. apply list_fmap_ext. intros _ [i r] _.
    by apply normalize_row_listid. }
  split; [done|]. split; [|by intros r ->].
  intros r Hr. apply (elem_of_column (cell_at "listid")) in Hr. rewrite Hl in Hr.
  apply list_elem_of_fmap in Hr as (ir & Hcell & _).
  exists (astype_str (cell_at "listid" ir.2)).
  unfold cell_at in Hcell at 1. by destruct (r !! "listid") as [v|]; simplify_eq/=.
Qed.

(** X7.  Of the fifteen columns the table shows, twelve are columns of every
    base table; [listid], [subject] and [date] are columns of the base table
    exactly when the file has them. *)
Theorem table_columns_in_base_table raw base header id :
  ingest raw = Ok base → (header, id) ∈ columns_for_table →
  has_column id base
  = if bool_decide (id ∈ ["listid"; "subject"; "date"]) then has_column id raw else true.
Proof.
  intros Hbase Hid. rewrite (ingest_columns raw base id Hbase).
  pose proof (ingest_rows raw base Hbase) as [Hprice _].
  unfold columns_for_table in Hid. rewrite !elem_of_cons in Hid.
  repeat (destruct Hid as [[= -> ->]|Hid];
          [first [reflexivity | exact Hprice | by rewrite Hprice]|]).
  by apply elem_of_nil in Hid.
Qed.

End ColumnFacts.

(** ** Decoding the properties *)

Section PropertiesFacts.
Context `{RT : Runtime}.

Lemma props_dict_malformed items item :
  item ∈ items → props_entry item = None → props_dict items = None.
Proof.
  induction items as [|x items IH]; intros Hin Hitem.
  - by apply elem_of_nil in Hin.
  - cbn [props_dict]. apply elem_of_cons in Hin as [<-|Hin].
    + by rewrite Hitem.
    + rewrite IH by done. by destruct (props_entry x).
Qed.

(** X8.  One entry of the [properties] list that is not an object makes
    [parse_properties] give up on the whole list: the comprehension of line
    98 raises on it, and the [except] branch returns the five fields missing,
    whatever the other entries say.  The counts of such a listing are 0. *)
Theorem malformed_entry_discards_properties s items item :
  json_loads s = Some (JArr items) →
  item ∈ items → (∀ fields, item ≠ JObj fields) →
  parse_properties s = no_properties
  ∧ numeric_or_zero (prop_rooms (parse_properties s)) = zero
  ∧ numeric_or_zero (prop_bathrooms (parse_properties s)) = zero
  ∧ numeric_or_zero (prop_garage_spaces (parse_properties s)) = zero.
Proof.
  intros Hs Hin Hitem.
  assert (parse_properties s = no_properties) as ->; [|done].
  unfold parse_properties. rewrite Hs.
  rewrite (props_dict_malformed items item Hin); [done|].
  destruct item; try done. by destruct (Hitem fields).
Qed.

Lemma dict_get_app_last k v d : dict_get k (d ++ [(k, v)])%list = Some v.
Proof.
  induction d as [|[k' v'] d IH]; cbn [app dict_get].
  - by rewrite bool_decide_eq_true_2.
  - by rewrite IH.
Qed.

Lemma props_dict_app items d fields name value :
  props_dict items = Some d →
  dict_get "name" fields = Some (JStr name) →
  dict_get "value" fields = Some value →
  props_dict (items ++ [JObj fields])%list = Some (d ++ [(name, value)])%list.
Proof.
  intros Hd Hname Hvalue. revert d Hd.
  induction items as [|x items IH]; intros d Hd.
  - injection Hd as <-. cbn [app props_dict props_entry]. by rewrite Hname, Hvalue.
  - cbn [app props_dict] in *. destruct (props_entry x) as [e|]; [|done].
    destruct (props_dict items) as [d0|]; [|done].
    rewrite (IH d0 eq_refl). injection Hd as <-. by destruct e.
Qed.

(** X9.  When a name comes more than once in the [properties] list, the last
    entry with that name is the one that counts: after any entries that
    decode, an entry with a text name and a value sets the field of that name
    to that value, whatever the earlier entries gave it. *)
Theorem last_property_entry_wins items d fields name value :
  props_dict items = Some d →
  dict_get "name" fields = Some (JStr name) →
  dict_get "value" fields = Some value →
  ∃ d', props_dict (items ++ [JObj fields])%list = Some d'
        ∧ get_or_nan name d' = cell_of_json value.
Proof.
  intros Hd Hname Hvalue. exists (d ++ [(name, value)])%list.
  split; [by apply props_dict_app|].
  unfold get_or_nan. by rewrite dict_get_app_last.
Qed.

End PropertiesFacts.

(** ** The rows the callback selects *)

Lemma bind_Ok {A B} (m : outcome A) (k : A → outcome B) (b : B) :
  m ≫= k = Ok b → ∃ a, m = Ok a ∧ k a = Ok b.
Proof. destruct m as [a|e]; [by exists a|done]. Qed.



Lemma filter_all {A} (l : list A) : filter (λ _, true = true) l = l.
Proof. induction l as [|a l IH]; [done|]. rewrite filter_cons. cbn. by rewrite IH. Qed.



Section SelectionFacts.
Context `{RT : Runtime}.










End SelectionFacts.

(** ** The sliders on a base table *)

Section RangeFacts.
Context `{RT : Runtime}.

Lemma filter_range_numeric col faixa df :
  has_column col df = true →
  (∀ r, r ∈ records df → ∃ x, cell_at col r = CNum x) →
  filter_range col faixa df
  = Ok (Frame (columns df) (filter (λ r, within faixa (cell_at col r) = true) (records df))).
Proof.
  intros Hcol Hnum. unfold filter_range.
  destruct faixa as [[lo hi]|].
  - unfold where_, column. rewrite Hcol. cbn [mbind outcome_bind].
    rewrite (filterM_pure _ (λ r, within (Some (lo, hi)) (cell_at col r))); [done|].
    intros r Hr. by destruct (Hnum r Hr) as [x ->].
  - destruct df as [cols rows]. cbn [columns records within]. by rewrite filter_all.
Qed.

(** In a base table the price and the three counts are numbers. *)
Lemma base_numbers raw base r k :
  ingest raw = Ok base → r ∈ records base →
  k ∈ ["price_value"; "rooms"; "bathrooms"; "garage_spaces"] →
  ∃ x, cell_at k r = CNum x.
Proof.
  intros Hbase Hr Hk.
  destruct (property_count_columns raw base Hbase) as (Hrooms & Hbath & Hgarage).
  rewrite !elem_of_cons in Hk.
  destruct Hk as [->|[->|[->|[->|Hk]]]]; [| | | |by apply elem_of_nil in Hk].
  - apply (elem_of_column (cell_at "price_value")) in Hr.
    rewrite (base_column raw base) in Hr by done.
    apply list_elem_of_fmap in Hr as ([i r0] & -> & _). cbn.
    rewrite normalize_row_price by (by apply ingest_rows in Hbase as [? _]).
    apply normal_price_numeric.
  - apply (elem_of_column (cell_at "rooms")) in Hr. rewrite Hrooms in Hr.
    apply list_elem_of_fmap in Hr as (ir & -> & _). apply numeric_or_zero_numeric.
  - apply (elem_of_column (cell_at "bathrooms")) in Hr. rewrite Hbath in Hr.
    apply list_elem_of_fmap in Hr as (ir & -> & _). apply numeric_or_zero_numeric.
  - apply (elem_of_column (cell_at "garage_spaces")) in Hr. rewrite Hgarage in Hr.
    apply list_elem_of_fmap in Hr as (ir & -> & _). apply numeric_or_zero_numeric.
Qed.

Lemma base_has_numbers raw base k :
  ingest raw = Ok base →
  k ∈ ["price_value"; "rooms"; "bathrooms"; "garage_spaces"] →
  has_column k base = true.
Proof.
  intros Hbase Hk. rewrite (ingest_columns raw base k Hbase).
  pose proof (ingest_rows raw base Hbase) as [Hprice _].
  rewrite !elem_of_cons in Hk.
  destruct Hk as [->|[->|[->|[->|Hk]]]]; [| | | |by apply elem_of_nil in Hk];
    first [reflexivity | by rewrite Hprice, !orb_true_r].
Qed.

(** X11.  On a base table the four sliders never raise: with no other
    criterion set, the view is the base table cut down to the rows whose
    price, rooms, bathrooms and garage spaces each lie between the bounds of
    its slider, both included (a slider that is not set lets every row
    pass); bounds that no row meets give a view without rows. *)
Theorem sliders_on_base_table raw base c :
  ingest raw = Ok base → only_ranges c →
  filtrar c base
  = Ok (Frame (columns base)
          (filter (λ r, within (faixa_preco c) (cell_at "price_value" r)
                        && within (faixa_quartos c) (cell_at "rooms" r)
                        && within (faixa_banheiros c) (cell_at "bathrooms" r)
                        && within (faixa_vagas c) (cell_at "garage_spaces" r) = true)
                  (records base))).
Proof.
  intros Hbase (Hs & He & Hm & Hb & Hc & Ht & Hpro & Hbusca).
  assert (Hnum : ∀ k, k ∈ ["price_value"; "rooms"; "bathrooms"; "garage_spaces"] →
                 ∀ P `{!∀ r, Decision (P r)} r,
                   r ∈ filter P (records base) → ∃ x, cell_at k r = CNum x).
  { intros k Hk P ? r [_ Hr]%list_elem_of_filter. by apply (base_numbers raw base). }
  assert (Hcol : ∀ k, k ∈ ["price_value"; "rooms"; "bathrooms"; "garage_spaces"] →
                 has_column k base = true)
    by (intros; by apply (base_has_numbers raw)).
  unfold filtrar.
  rewrite filter_date_unset by auto. cbn [mbind outcome_bind].
  do 4 (rewrite filter_isin_unset by done; cbn [mbind outcome_bind]).
  rewrite (filter_range_numeric "price_value");
    [|apply Hcol; set_solver|intros r Hr; by apply (base_numbers raw base); [| |set_solver]].
  cbn [mbind outcome_bind].
  rewrite (filter_range_numeric "rooms");
    [|apply Hcol; set_solver|cbn [records]; apply Hnum; set_solver].
  cbn [mbind outcome_bind records columns].
  rewrite (filter_range_numeric "bathrooms");
    [|apply Hcol; set_solver
     |cbn [records]; rewrite list_filter_filter; apply Hnum; set_solver].
  cbn [mbind outcome_bind records columns].
  rewrite (filter_range_numeric "garage_spaces");
    [|apply Hcol; set_solver
     |cbn [records]; rewrite !list_filter_filter; apply Hnum; set_solver].
  cbn [mbind outcome_bind records columns].
  rewrite Hpro. cbn [filter_profissional mbind outcome_bind].
  unfold filter_busca. rewrite Hbusca. do 2 f_equal.
  rewrite !list_filter_filter. apply list_filter_iff. intros r.
  rewrite !andb_true_iff. tauto.
Qed.

End RangeFacts.

(** ** The search *)

Section SearchFacts.
Context `{RT : Runtime}.

(** X12.  A search term that does not compile as a regular expression makes
    the callback raise, as soon as the table has a row and one of the
    columns [subject], [title]: the first row already raises [re.error],
    and nothing catches it. *)
Theorem invalid_search_pattern_raises term df :
  term ≠ "" → (∀ s, re_search_ignorecase term s = None) →
  records df ≠ [] → text_columns df ≠ [] →
  (atualizar_dashboard (only_busca term) df).1 = Raise ReError.
Proof.
  intros Hterm Hre Hrows Hcols.
  unfold atualizar_dashboard. cbv zeta. cbn [fst].
  assert (filtrar (only_busca term) df = Raise ReError) as ->; [|done].
  unfold filtrar, only_busca. cbn [start_date end_date municipios bairros categorias tipos
    faixa_preco faixa_quartos faixa_banheiros faixa_vagas profissional busca].
  rewrite filter_date_unset by (by left). cbn [mbind outcome_bind].
  do 4 (rewrite filter_isin_unset by done; cbn [mbind outcome_bind]).
  cbn [filter_range filter_profissional mbind outcome_bind].
  unfold filter_busca, given_text.
  rewrite (proj2 (String.eqb_neq term "")) by done.
  fold (text_columns df). destruct (text_columns df) as [|col cols]; [done|].
  destruct (records df) as [|r rows]; [done|].
  assert (Hrow : row_matches term (col :: cols) r = Raise ReError)
    by (unfold row_matches; cbn [traverse]; by rewrite Hre).
  cbn [filterM]. by rewrite Hrow.
Qed.

End SearchFacts.

(** ** The popup *)

Lemma append_assoc_string (s t u : string) : (s ++ t) ++ u = s ++ (t ++ u).
Proof.
  induction s as [|a s IH]; [done|].
  change (String a ((s ++ t) ++ u) = String a (s ++ (t ++ u))). by rewrite IH.
Qed.

Lemma length_append_string (s t : string) :
  String.length (s ++ t) = (String.length s + String.length t)%nat.
Proof.
  induction s as [|a s IH]; [done|].
  change (S (String.length (s ++ t)) = S (String.length s + String.length t)).
  by rewrite IH.
Qed.

Lemma rstrip_not_blank s : blank s = false → rstrip s ≠ "".
Proof.
  induction s as [|a s IH]; [done|]. cbn [blank rstrip].
  intros [Ha|Hs]%andb_false_iff.
  - rewrite Ha. by destruct (rstrip s).
  - specialize (IH Hs). by destruct (rstrip s).
Qed.

Lemma lstrip_not_blank s : blank s = false → blank (lstrip s) = false.
Proof.
  induction s as [|a s IH]; [done|]. cbn [blank lstrip].
  destruct (is_space a) eqn:Ha; [by cbn|]. intros _. cbn [blank]. by rewrite Ha.
Qed.

Lemma strip_not_blank s : blank s = false → strip s ≠ "".
Proof. intros Hs. unfold strip. by apply rstrip_not_blank, lstrip_not_blank. Qed.

Lemma blank_with_quote head rest : blank (head ++ dquote ++ rest) = false.
Proof.
  induction head as [|a head IH]; [done|].
  change (String a head ++ dquote ++ rest) with (String a (head ++ dquote ++ rest)).
  cbn [blank]. rewrite IH. apply andb_false_r.
Qed.

(** What the popup callback reads out of a text that starts like the
    fragment of line 140, up to the first double quote after [src=]. *)
Lemma src_up_to_quote head rest :
  quote_free head = true →
  let cell_value := "<img src=" ++ dquote ++ head ++ dquote ++ rest in
  let start := py_find ("src=" ++ dquote) cell_value 0 in
  start = 5
  ∧ py_find dquote cell_value (Z.to_nat start + String.length ("src=" ++ dquote))
    = Z.of_nat (10 + String.length head)
  ∧ py_slice cell_value (Z.to_nat start + String.length ("src=" ++ dquote))
             (Z.of_nat (10 + String.length head))
    = head.
Proof.
  intros Hfree. cbv zeta.
  set (text := "<img src=" ++ dquote ++ head ++ dquote ++ rest).
  assert (py_find ("src=" ++ dquote) text 0 = 5) as ->.
  { unfold py_find, string_drop. rewrite Nat.sub_0_r, substring_all.
    subst text. by destruct head. }
  split; [done|].
  assert (text = "<img src=" ++ dquote ++ (head ++ String (ascii_of_nat 34) rest)) as Hm by done.
  assert (String.length text
          = (10 + String.length (head ++ String (ascii_of_nat 34) rest))%nat) as Hlen
    by (by rewrite Hm).
  assert (string_drop 10 text = head ++ String (ascii_of_nat 34) rest) as Hdrop.
  { unfold string_drop. rewrite Hlen, Hm.
    replace (10 + String.length (head ++ String (ascii_of_nat 34) rest) - 10)%nat
      with (String.length (head ++ String (ascii_of_nat 34) rest)) by lia.
    cbn [append dquote chr substring]. apply substring_all. }
  change (Z.to_nat 5 + String.length ("src=" ++ dquote))%nat with 10%nat.
  split.
  - unfold py_find. rewrite Hdrop, Hlen.
    replace (10 + String.length (head ++ String (ascii_of_nat 34) rest) <? 10)%nat
      with false by (symmetry; apply Nat.ltb_ge; lia).
    by rewrite find_in_quote.
  - unfold py_slice. rewrite Hlen.
    replace (Z.of_nat (10 + String.length head) <? 0)%Z with false
      by (symmetry; apply Z.ltb_ge; lia).
    assert (String.length head ≤ String.length (head ++ String (ascii_of_nat 34) rest))%nat.
    { rewrite length_append_string. lia. }
    rewrite Z.min_l by lia.
    replace (Z.to_nat (Z.of_nat (10 + String.length head)) - 10)%nat
      with (String.length head) by lia.
    rewrite Hm. cbn [append dquote chr substring]. apply substring_prefix.
Qed.

(** X13.  A URL that holds a double quote does not come back whole: the
    formatter writes it into the fragment as it is, and the popup callback
    reads the source up to the first double quote, so a click opens the
    popup on the part of the URL before its first double quote. *)
Theorem url_cut_at_first_quote head rest prop_id others table i row fechar is_open :
  quote_free head = true →
  before_dot prop_id = "tabela-dados" →
  table !! i = Some row →
  row !! "thumbnail_link" = Some (CStr (thumbnail_markup (head ++ dquote ++ rest))) →
  create_thumbnail_html (CStr (head ++ dquote ++ rest))
  = Ok (thumbnail_markup (head ++ dquote ++ rest))
  ∧ exibir_imagem (prop_id :: others) (Some (Active i "thumbnail_link")) table fechar is_open
    = Ok (true, head).
Proof.
  intros Hfree Hprop Hrow Hcell. split.
  - apply create_thumbnail_html_markup, strip_not_blank, blank_with_quote.
  - set (tail := dquote ++ " class=" ++ dquote ++ "thumb-img" ++ dquote ++ " />").
    assert (thumbnail_markup (head ++ dquote ++ rest)
            = "<img src=" ++ dquote ++ head ++ dquote ++ (rest ++ tail)) as Hm.
    { unfold thumbnail_markup. do 2 f_equal. by rewrite !append_assoc_string. }
    destruct (src_up_to_quote head (rest ++ tail) Hfree) as (Hstart & Hend & Hslice).
    rewrite <- Hm in Hstart, Hend, Hslice.
    unfold exibir_imagem. rewrite Hprop.
    cbn [String.eqb Ascii.eqb Bool.eqb ac_column_id ac_row].
    rewrite Hrow, Hcell. cbn [default from_option]. unfold id.
    assert (truthy (CStr (thumbnail_markup (head ++ dquote ++ rest))) = true) as -> by done.
    rewrite Hstart in *. change (5 =? -1)%Z with false. cbv iota.
    by rewrite Hend, Hslice.
Qed.

(** X14.  The popup opens only on a click on a thumbnail: when the callback
    finds the popup closed and returns it open, the input that fired is the
    active cell of the table, the cell is in the [thumbnail_link] column of a
    row of the table data, and that row holds a text in which [src=] and a
    double quote occur; the source returned is cut out of that text. *)
Theorem popup_opens_only_on_thumbnail_click triggered active_cell table fechar url :
  exibir_imagem triggered active_cell table fechar false = Ok (true, url) →
  ∃ prop_id others i row markup,
    triggered = prop_id :: others
    ∧ before_dot prop_id = "tabela-dados"
    ∧ active_cell = Some (Active i "thumbnail_link")
    ∧ table !! i = Some row
    ∧ row !! "thumbnail_link" = Some (CStr markup)
    ∧ (0 <= py_find ("src=" ++ dquote) markup 0)%Z
    ∧ url = py_slice markup
              (Z.to_nat (py_find ("src=" ++ dquote) markup 0) + 5)
              (py_find dquote markup (Z.to_nat (py_find ("src=" ++ dquote) markup 0) + 5)).
Proof.
  unfold exibir_imagem. destruct triggered as [|prop_id others]; [done|]. cbv zeta.
  destruct (String.eqb_spec (before_dot prop_id) "tabela-dados") as [Hprop|Hprop].
  - destruct active_cell as [[i col]|]; cbn [ac_column_id ac_row].
    + destruct (String.eqb_spec col "thumbnail_link") as [->|_]; [|done].
      destruct (table !! i) as [row|] eqn:Hrow; [|done].
      destruct (row !! "thumbnail_link") as [cell|] eqn:Hcell; cbn [default from_option];
        unfold id; [|done].
      destruct (truthy cell); [|done].
      destruct cell as [| | |markup| |]; try done.
      destruct (Z.eqb_spec (py_find ("src=" ++ dquote) markup 0) (-1)) as [|Hfound]; [done|].
      intros [= <-]. exists prop_id, others, i, row, markup.
      repeat split; try done.
      unfold py_find in *. destruct (String.length markup <? 0)%nat; [done|].
      destruct (find_in _ _); [lia|done].
    + by destruct (String.eqb (before_dot prop_id) "fechar-modal").
  - by destruct (String.eqb (before_dot prop_id) "fechar-modal").
Qed.

(** ** The date column *)

Section DateFacts.
Context `{RT : Runtime}.

(** X15.  When the file has a [date] column, the base table holds in it,
    row by row, what [to_datetime] with [unit='s'] and [errors='coerce']
    reads in the raw value: a timestamp, or the missing value when it reads
    none.  A date that cannot be read neither raises nor drops the
    listing. *)
Theorem date_of_base_table raw base :
  ingest raw = Ok base → has_column "date" raw = true →
  cell_at "date" <$> records base
  = (λ ir, time_cell (to_datetime_s (cell_at "date" ir.2))) <$> survivors raw
  ∧ length (records base) = length (survivors raw)
  ∧ (∀ r, r ∈ records base →
          cell_at "date" r = CNull ∨ ∃ t, cell_at "date" r = CTime t).
Proof.
  intros Hbase Hdate.
  assert (Hd : cell_at "date" <$> records base
    = (λ ir, time_cell (to_datetime_s (cell_at "date" ir.2))) <$> survivors raw).
  { rewrite (base_column raw base) by done. apply list_fmap_ext. intros _ [i r] _.
    by apply normalize_row_date. }
  split; [done|]. split; [by apply length_survivors|].
  intros r Hr. apply (elem_of_column (cell_at "date")) in Hr. rewrite Hd in Hr.
  apply list_elem_of_fmap in Hr as (ir & -> & _).
  destruct (to_datetime_s (cell_at "date" ir.2)) as [t|]; cbn; eauto.
Qed.

End DateFacts.

(** ** Thumbnails of the base table *)

Lemma traverse_zip_with {A B C} (f : A → outcome B) (g : B → A → C) (l : list A)
    (bs : list B) (c : C) :
  traverse f l = Ok bs → c ∈ zip_with g bs l →
  ∃ a b, a ∈ l ∧ f a = Ok b ∧ c = g b a.
Proof.
  revert bs. induction l as [|a l IH]; intros bs; cbn [traverse].
  - intros [= <-] Hc. by apply elem_of_nil in Hc.
  - intros (b & Hb & (r & Hr & [= <-])%bind_Ok)%bind_Ok. cbn [zip_with].
    intros [->|Hc]%elem_of_cons.
    + exists a, b. split; [left|done].
    + destruct (IH r Hr Hc) as (a' & b' & Ha' & Hfa' & ->).
      exists a', b'. split; [by right|done].
Qed.

Section ThumbnailFacts.
Context `{RT : Runtime}.

(** In a base table every row holds in [thumbnail_link] what the formatter
    returns on the thumbnail of that same row. *)
Lemma base_thumbnail_link raw base row :
  ingest raw = Ok base → has_column "thumbnail" raw = true → row ∈ records base →
  ∃ link, row !! "thumbnail_link" = Some (CStr link)
          ∧ create_thumbnail_html (cell_at "thumbnail" row) = Ok link.
Proof.
  intros Hbase Hcol. revert Hbase. unfold ingest.
  destruct (has_column "price_value" raw) eqn:Hprice;
    [|by rewrite normalize_missing_price].
  destruct (range_filter_normalize raw Hprice) as (view & Hview & _ & Hcols).
  destruct (normalize raw) as [norm|]; [|done]. cbn [mbind outcome_bind] in *.
  rewrite Hview. cbn [mbind outcome_bind]. unfold add_thumbnails.
  rewrite Hcols, Hcol, orb_true_r.
  intros (links & Hlinks & [= <-])%bind_Ok. cbn [records]. intros Hrow.
  destruct (traverse_zip_with _ _ _ _ _ Hlinks Hrow) as (r & link & _ & Hlink & ->).
  exists link. split; [by rewrite lookup_insert_eq|].
  unfold cell_at. by rewrite lookup_insert_ne.
Qed.

(** X16.  The thumbnail column of a base table agrees with its thumbnails:
    when the file has a [thumbnail] column, every row holds in
    [thumbnail_link] the [img] fragment built around its own thumbnail, and
    the empty text when its thumbnail is missing or blank; when the file has
    no such column, every row holds the empty text. *)
Theorem thumbnail_link_of_base_table raw base row :
  ingest raw = Ok base → row ∈ records base →
  ∃ link, row !! "thumbnail_link" = Some (CStr link)
    ∧ (has_column "thumbnail" raw = false → link = "")
    ∧ (has_column "thumbnail" raw = true →
       (cell_at "thumbnail" row = CNull → link = "")
       ∧ (∀ url, cell_at "thumbnail" row = CStr url →
            link = if String.eqb (strip url) "" then "" else thumbnail_markup url)).
Proof.
  intros Hbase Hrow. destruct (has_column "thumbnail" raw) eqn:Hcol.
  - destruct (base_thumbnail_link raw base row Hbase Hcol Hrow) as (link & Hlink & Hhtml).
    exists link. split; [done|]. split; [done|]. intros _. split.
    + intros Hnull. rewrite Hnull in Hhtml. by injection Hhtml as <-.
    + intros url Hurl. rewrite Hurl in Hhtml. cbn [create_thumbnail_html] in Hhtml.
      destruct (String.eqb (strip url) ""); by injection Hhtml as <-.
  - revert Hbase Hrow. unfold ingest.
    destruct (has_column "price_value" raw) eqn:Hprice;
      [|by rewrite normalize_missing_price].
    destruct (range_filter_normalize raw Hprice) as (view & Hview & _ & Hcols).
    destruct (normalize raw) as [norm|]; [|done]. cbn [mbind outcome_bind] in *.
    rewrite Hview. cbn [mbind outcome_bind]. unfold add_thumbnails.
    rewrite Hcols, Hcol, orb_false_r.
    assert (bool_decide ("thumbnail" ∈ derived_columns) = false) as -> by done.
    intros [= <-]. cbn [records set_col].
    intros (r & -> & _)%list_elem_of_fmap.
    exists "". split; [by rewrite lookup_insert_eq|]. split; [done|]. intros [=].
Qed.

(** X17.  A click on the thumbnail of a listing opens the popup on the URL
    of that listing: when the table data holds at position [i] a row of a
    base table whose thumbnail is a URL that is not blank and has no double
    quote, the callback fired by a click on the [thumbnail_link] cell of
    row [i] returns the popup open and that URL as the source. *)
Theorem click_opens_the_listing_thumbnail raw base table i row url prop_id others
    fechar is_open :
  ingest raw = Ok base → has_column "thumbnail" raw = true →
  row ∈ records base → table !! i = Some row →
  cell_at "thumbnail" row = CStr url →
  strip url ≠ "" → quote_free url = true →
  before_dot prop_id = "tabela-dados" →
  exibir_imagem (prop_id :: others) (Some (Active i "thumbnail_link")) table fechar is_open
  = Ok (true, url).
Proof.
  intros Hbase Hcol Hin Hrow Hurl Hblank Hfree Hprop.
  destruct (base_thumbnail_link raw base row Hbase Hcol Hin) as (link & Hlink & Hhtml).
  rewrite Hurl, create_thumbnail_html_markup in Hhtml by done. injection Hhtml as <-.
  destruct (src_of_markup url Hfree) as (Hstart & Hend & Hslice).
  unfold exibir_imagem. rewrite Hprop.
  cbn [String.eqb Ascii.eqb Bool.eqb ac_column_id ac_row].
  rewrite Hrow, Hlink. cbn [default from_option]. unfold id.
  assert (truthy (CStr (thumbnail_markup url)) = true) as -> by done.
  rewrite Hstart in *. change (5 =? -1)%Z with false. cbv iota.
  by rewrite Hend, Hslice.
Qed.

End ThumbnailFacts.

(** ** What the pre-processing leaves alone *)

Section UntouchedFacts.
Context `{RT : Runtime}.

Lemma normalize_row_other raw i r k :
  k ∉ assigned_columns → cell_at k (normalize_row raw i r) = cell_at k r.
Proof.
  unfold assigned_columns. rewrite !not_elem_of_cons.
  intros (? & ? & ? & ? & ? & ? & ? & ? & ? & ? & ? & ? & ? & ? & ? & ? & _).
  unfold normalize_row, compose.
  rewrite !cell_at_row_set_ne by done.
  rewrite cell_at_properties_row, cell_at_location_row
    by (rewrite !not_elem_of_cons; repeat split; try done; apply not_elem_of_nil).
  rewrite !cell_at_if_row_set by done.
  by apply cell_at_row_set_ne.
Qed.

(** X18.  The pre-processing touches the columns it assigns and no other:
    any other column of the file ([subject], [title], [professionalad],
    [thumbnail], ...) holds in the base table, row by row, the raw value of
    the listing. *)
Theorem other_columns_pass_through raw base k :
  ingest raw = Ok base → k ∉ assigned_columns →
  cell_at k <$> records base = (λ ir, cell_at k ir.2) <$> survivors raw.
Proof.
  intros Hbase Hk.
  rewrite (base_column raw base); [|done|].
  - apply list_fmap_ext. intros _ [i r] _. by apply normalize_row_other.
  - intros ->. apply Hk. unfold assigned_columns. set_solver.
Qed.

End UntouchedFacts.

(** ** The no-data answer *)

Section NoDataFacts.
Context `{RT : Runtime}.


End NoDataFacts.

(** ** The further properties on concrete frames *)

Lemma ingest_without_price_raises_witness :
  has_column "price_value" no_price_example = false
  ∧ ingest (RT := Fragment.runtime) no_price_example = Raise (KeyError "price_value").
Proof.
  split; [reflexivity|].
  exact (ingest_without_price_raises (RT := Fragment.runtime) no_price_example eq_refl).
Defined.

Lemma thumbnail_ingest :
  ingest (RT := Fragment.runtime) thumbnail_example = Ok thumbnail_base.
Proof. vm_compute. reflexivity. Qed.

(** The three listings in range come out with their markup; the fourth is
    dropped before the formatter runs. *)
Example thumbnail_example_links :
  cell_at "thumbnail_link" <$> records thumbnail_base
  = [CStr (thumbnail_markup "http://img.example/1.jpg"); CStr ""; CStr ""].
Proof. vm_compute. reflexivity. Qed.

Lemma thumbnail_example_texts r :
  r ∈ records thumbnail_example → survives (RT := Fragment.runtime) r = true →
  missing_or_text (cell_at "thumbnail" r) = true.
Proof.
  intros Hr Hs. cbn [records thumbnail_example] in Hr.
  repeat (apply elem_of_cons in Hr as [->|Hr]; [first [reflexivity|discriminate Hs]|]).
  by apply elem_of_nil in Hr.
Defined.

Lemma thumbnail_example_labels : NoDup (columns thumbnail_example).
Proof.
  cbn [columns thumbnail_example]. apply NoDup_cons. split.
  - rewrite list_elem_of_singleton. discriminate.
  - apply NoDup_singleton.
Defined.

Lemma ingest_succeeds_on_text_thumbnails_witness :
  NoDup (columns thumbnail_example)
  ∧ has_column "price_value" thumbnail_example = true
  ∧ ∃ base, ingest (RT := Fragment.runtime) thumbnail_example = Ok base
            ∧ length (records base)
              = length (survivors (RT := Fragment.runtime) thumbnail_example).
Proof.
  split; [exact thumbnail_example_labels|]. split; [reflexivity|].
  exact (ingest_succeeds_on_text_thumbnails (RT := Fragment.runtime) thumbnail_example
           thumbnail_example_labels eq_refl thumbnail_example_texts).
Defined.

Lemma ingest_number_thumbnail_raises_witness :
  has_column "thumbnail" numeric_thumbnail_example = true
  ∧ ingest (RT := Fragment.runtime) numeric_thumbnail_example = Raise AttributeError.
Proof.
  split; [reflexivity|].
  refine (ingest_number_thumbnail_raises (RT := Fragment.runtime) numeric_thumbnail_example
            (listing [("price_value", CNum (num_of_Z 500)); ("thumbnail", CNum (num_of_Z 7))])
            eq_refl eq_refl _ eq_refl eq_refl).
  apply list_elem_of_here.
Defined.

Lemma location_ingest :
  ingest (RT := Fragment.runtime) location_example = Ok location_base.
Proof. vm_compute. reflexivity. Qed.

(** The first listing keeps its municipality and its state and gets the
    text for the two keys its location lacks; the other two get the text
    everywhere.  The identifiers of the listings are texts. *)
Example location_example_columns :
  cell_at "municipality" <$> records location_base
  = [CStr "Manaus"; CStr "Desconhecido"; CStr "Desconhecido"]
  ∧ cell_at "ddd" <$> records location_base
    = [CStr "Desconhecido"; CStr "Desconhecido"; CStr "Desconhecido"]
  ∧ cell_at "uf" <$> records location_base
    = [CStr "AM"; CStr "Desconhecido"; CStr "Desconhecido"]
  ∧ cell_at "listid" <$> records location_base = [CStr "1234"; CStr "nan"; CStr "A-77"].
Proof. repeat split; vm_compute; reflexivity. Qed.

Lemma location_fields_of_base_table_witness :
  ingest (RT := Fragment.runtime) location_example = Ok location_base
  ∧ cell_at "municipality" <$> records location_base
    = (λ ir, fillna (CStr "Desconhecido")
               (source_location (RT := Fragment.runtime) location_example
                  loc_municipality ir.2))
      <$> survivors (RT := Fragment.runtime) location_example.
Proof.
  split; [exact location_ingest|].
  exact (proj1 (proj2 (location_fields_of_base_table (RT := Fragment.runtime)
                         location_example location_base location_ingest))).
Defined.

Lemma category_fields_of_base_table_witness :
  ingest (RT := Fragment.runtime) coercion_example = Ok coercion_base
  ∧ cell_at "category" <$> records coercion_base
    = (λ ir, source_property (RT := Fragment.runtime) coercion_example prop_category ir.2)
      <$> survivors (RT := Fragment.runtime) coercion_example.
Proof.
  split; [exact coercion_ingest|].
  exact (proj1 (category_fields_of_base_table (RT := Fragment.runtime)
                  coercion_example coercion_base coercion_ingest)).
Defined.

(** The properties of [coercion_example] name no category. *)
Example coercion_example_category :
  cell_at "category" <$> records coercion_base = [CNull].
Proof. vm_compute. reflexivity. Qed.

Lemma listid_of_base_table_witness :
  ingest (RT := Fragment.runtime) location_example = Ok location_base
  ∧ has_column "listid" location_example = true
  ∧ cell_at "listid" <$> records location_base
    = (λ ir, CStr (astype_str (RT := Fragment.runtime) (cell_at "listid" ir.2)))
      <$> survivors (RT := Fragment.runtime) location_example.
Proof.
  split; [exact location_ingest|]. split; [reflexivity|].
  exact (proj1 (listid_of_base_table (RT := Fragment.runtime)
                  location_example location_base location_ingest eq_refl)).
Defined.

Lemma table_columns_in_base_table_witness :
  ingest (RT := Fragment.runtime) price_example = Ok price_example_base
  ∧ ("Data", "date") ∈ columns_for_table
  ∧ has_column "date" price_example_base = has_column "date" price_example
  ∧ has_column "date" price_example = false.
Proof.
  assert (("Data", "date") ∈ columns_for_table) as Hin.
  { unfold columns_for_table. do 14 apply list_elem_of_further. apply list_elem_of_here. }
  split; [exact price_example_ingest|]. split; [exact Hin|]. split; [|reflexivity].
  exact (table_columns_in_base_table (RT := Fragment.runtime) price_example
           price_example_base "Data" "date" price_example_ingest Hin).
Defined.

Lemma malformed_entry_discards_properties_witness :
  Fragment.json_loads malformed_properties
  = Some (JArr [JObj [("name", JStr "rooms"); ("value", JStr "3")]; JNum (num_of_Z 5)])
  ∧ parse_properties (RT := Fragment.runtime) malformed_properties = no_properties.
Proof.
  assert (Fragment.json_loads malformed_properties
          = Some (JArr [JObj [("name", JStr "rooms"); ("value", JStr "3")];
                        JNum (num_of_Z 5)])) as Hs by (vm_compute; reflexivity).
  split; [exact Hs|].
  refine (proj1 (malformed_entry_discards_properties (RT := Fragment.runtime)
                   malformed_properties _ (JNum (num_of_Z 5)) Hs _ _)).
  - apply list_elem_of_further, list_elem_of_here.
  - intros fields. discriminate.
Defined.

Lemma last_property_entry_wins_witness :
  ∃ d', props_dict rooms_twice = Some d'
        ∧ get_or_nan "rooms" d' = CNum (num_of_Z 3).
Proof.
  exact (last_property_entry_wins
           [JObj [("name", JStr "rooms"); ("value", JStr "2")]]
           [("rooms", JStr "2")]
           [("name", JStr "rooms"); ("value", JNum (num_of_Z 3))]
           "rooms" (JNum (num_of_Z 3)) eq_refl eq_refl eq_refl).
Defined.


(** Of the two listings of [price_example_base], at 500 and at 10000, the
    first is the one that costs at most 600. *)
Example cheap_listings :
  (λ view, cell_at "price_value" <$> records view)
    <$> filtrar (RT := Fragment.runtime) cheap_with_rooms price_example_base
  = Ok [CNum (num_of_Z 500)].
Proof. vm_compute. reflexivity. Qed.

Lemma sliders_on_base_table_witness :
  ingest (RT := Fragment.runtime) price_example = Ok price_example_base
  ∧ only_ranges cheap_with_rooms
  ∧ filtrar (RT := Fragment.runtime) cheap_with_rooms price_example_base
    = Ok (Frame (columns price_example_base)
            (filter (λ r, within (faixa_preco cheap_with_rooms) (cell_at "price_value" r)
                          && within (faixa_quartos cheap_with_rooms) (cell_at "rooms" r)
                          && within (faixa_banheiros cheap_with_rooms) (cell_at "bathrooms" r)
                          && within (faixa_vagas cheap_with_rooms) (cell_at "garage_spaces" r)
                          = true)
                    (records price_example_base))).
Proof.
  assert (only_ranges cheap_with_rooms) as H by (repeat split).
  split; [exact price_example_ingest|]. split; [exact H|].
  exact (sliders_on_base_table (RT := Fragment.runtime) price_example price_example_base
           cheap_with_rooms price_example_ingest H).
Defined.

(** The term is an opening parenthesis, which is no regular expression. *)
Lemma invalid_search_pattern_raises_witness :
  (atualizar_dashboard (RT := Fragment.runtime) (only_busca "(") search_base).1
  = Raise ReError.
Proof.
  refine (invalid_search_pattern_raises (RT := Fragment.runtime) "(" search_base _ _ _ _).
  - discriminate.
  - intros s. reflexivity.
  - discriminate.
  - discriminate.
Defined.

Lemma url_cut_at_first_quote_witness :
  quote_free "http://img.example/a" = true
  ∧ create_thumbnail_html (CStr quoted_url) = Ok (thumbnail_markup quoted_url)
  ∧ exibir_imagem ["tabela-dados.active_cell"] (Some (Active 0 "thumbnail_link"))
      [ {["thumbnail_link" := CStr (thumbnail_markup quoted_url)]} ] 0 false
    = Ok (true, "http://img.example/a").
Proof.
  split; [reflexivity|].
  refine (url_cut_at_first_quote "http://img.example/a" "b.jpg"
            "tabela-dados.active_cell" []
            [ {["thumbnail_link" := CStr (thumbnail_markup quoted_url)]} ]
            0%nat {["thumbnail_link" := CStr (thumbnail_markup quoted_url)]}
            0 false eq_refl eq_refl eq_refl _).
  apply lookup_singleton_eq.
Defined.

Lemma thumbnail_click :
  exibir_imagem ["tabela-dados.active_cell"] (Some (Active 0 "thumbnail_link"))
    one_thumbnail_table 0 false
  = Ok (true, "http://img.example/1.jpg").
Proof.
  unfold exibir_imagem, one_thumbnail_table.
  cbn [before_dot Ascii.eqb Bool.eqb String.eqb ac_column_id ac_row].
  cbn [lookup list_lookup]. rewrite lookup_singleton_eq. vm_compute. reflexivity.
Defined.

Lemma popup_opens_only_on_thumbnail_click_witness :
  ∃ prop_id others i row markup,
    ["tabela-dados.active_cell"] = prop_id :: others
    ∧ before_dot prop_id = "tabela-dados"
    ∧ Some (Active 0 "thumbnail_link") = Some (Active i "thumbnail_link")
    ∧ one_thumbnail_table !! i = Some row
    ∧ row !! "thumbnail_link" = Some (CStr markup)
    ∧ (0 <= py_find ("src=" ++ dquote) markup 0)%Z
    ∧ "http://img.example/1.jpg"
      = py_slice markup
          (Z.to_nat (py_find ("src=" ++ dquote) markup 0) + 5)
          (py_find dquote markup (Z.to_nat (py_find ("src=" ++ dquote) markup 0) + 5)).
Proof.
  exact (popup_opens_only_on_thumbnail_click _ _ _ _ _ thumbnail_click).
Defined.

Lemma date_of_base_table_witness :
  ingest (RT := Fragment.runtime) dated_example = Ok dated_base
  ∧ has_column "date" dated_example = true
  ∧ cell_at "date" <$> records dated_base
    = (λ ir, time_cell (@to_datetime_s Fragment.runtime (cell_at "date" ir.2)))
      <$> survivors (RT := Fragment.runtime) dated_example.
Proof.
  split; [exact dated_ingest|]. split; [reflexivity|].
  exact (proj1 (date_of_base_table (RT := Fragment.runtime) dated_example dated_base
                  dated_ingest eq_refl)).
Defined.

Lemma thumbnail_link_of_base_table_witness :
  ingest (RT := Fragment.runtime) thumbnail_example = Ok thumbnail_base
  ∧ ∀ row, row ∈ records thumbnail_base →
      ∃ link, row !! "thumbnail_link" = Some (CStr link)
        ∧ (has_column "thumbnail" thumbnail_example = false → link = "")
        ∧ (has_column "thumbnail" thumbnail_example = true →
           (cell_at "thumbnail" row = CNull → link = "")
           ∧ (∀ url, cell_at "thumbnail" row = CStr url →
                link = if String.eqb (strip url) "" then "" else thumbnail_markup url)).
Proof.
  split; [exact thumbnail_ingest|].
  exact (λ row, thumbnail_link_of_base_table (RT := Fragment.runtime) thumbnail_example
                  thumbnail_base row thumbnail_ingest).
Defined.

(** The first row of [thumbnail_base]. *)
Lemma first_thumbnail_row :
  ∃ row, records thumbnail_base !! 0%nat = Some row
         ∧ row ∈ records thumbnail_base
         ∧ cell_at "thumbnail" row = CStr "http://img.example/1.jpg".
Proof.
  eexists. split; [reflexivity|]. split; [apply list_elem_of_here|].
  vm_compute. reflexivity.
Defined.

Lemma click_opens_the_listing_thumbnail_witness :
  ingest (RT := Fragment.runtime) thumbnail_example = Ok thumbnail_base
  ∧ exibir_imagem ["tabela-dados.active_cell"] (Some (Active 0 "thumbnail_link"))
      (records thumbnail_base) 0 false
    = Ok (true, "http://img.example/1.jpg").
Proof.
  split; [exact thumbnail_ingest|].
  destruct first_thumbnail_row as (row & Hrow & Hin & Hurl).
  refine (click_opens_the_listing_thumbnail (RT := Fragment.runtime) thumbnail_example
            thumbnail_base (records thumbnail_base) 0%nat row "http://img.example/1.jpg"
            "tabela-dados.active_cell" [] 0 false thumbnail_ingest eq_refl Hin Hrow Hurl
            _ eq_refl eq_refl).
  vm_compute. discriminate.
Defined.

(** The subjects of [search_base] are those of the file. *)
Lemma other_columns_pass_through_witness :
  ingest (RT := Fragment.runtime) search_example = Ok search_base
  ∧ cell_at "subject" <$> records search_base
    = (λ ir, cell_at "subject" ir.2) <$> survivors (RT := Fragment.runtime) search_example.
Proof.
  split; [exact search_ingest|].
  refine (other_columns_pass_through (RT := Fragment.runtime) search_example search_base
            "subject" search_ingest _).
  unfold assigned_columns. rewrite !not_elem_of_cons.
  repeat split; try discriminate. apply not_elem_of_nil.
Defined.

